(** * The miner control coordinator of the BLOC GUI miner (src/gui/gui.go)

    A shallow embedding of [gui.go]: the command dispatcher
    [handleElectronCommands], the lifecycle procedures [startMiner],
    [stopMiner] and [configureMiner], the constructor [New] and the two
    statistics pollers, followed by the properties of the coordinator.

    The coordinator talks to collaborators that live outside [gui.go]: the
    miner backend (package [miner]), the pool API client, the configuration
    store, the Electron transport, the clock and [encoding/json].  They are
    gathered in a record of operations over an abstract world [W]; every
    call threads the world and is recorded, with its answer, in a trace. *)

From Stdlib Require Import String List ZArith Floats Bool Lia.
Import ListNotations.

Local Open Scope string_scope.
Local Open Scope Z_scope.
Local Open Scope list_scope.

(** A Go [error] is represented by its [Error()] text, which is all that
    [gui.go] ever uses of it (through the [%s] verb). *)
Definition error : Type := string.

(** [fmt.Sprintf] is only used with [%s] verbs; the formatted text is the
    concatenation of the pieces. *)
Definition cat (pieces : list string) : string :=
  fold_right String.append EmptyString pieces.

(** ** Package [miner]: the declarations [gui.go] relies on *)

Module miner.

(** [miner.Config]; its field [Type] is written [Type_]. *)
Record Config : Type := mkConfig
  { Type_ : string;
    Path : string;
    HardwareType : Z }.

(** [miner.ProcessingConfig] *)
Record ProcessingConfig : Type := mkProcessingConfig
  { Threads : Z;
    MaxUsage : Z }.

(** [miner.Stats]: the fields read or written by [gui.go]. *)
Record Stats : Type := mkStats
  { Hashrate : float;
    Address : string;
    UpdateGraph : bool }.

Definition set_Address (v : string) (s : Stats) : Stats :=
  mkStats (Hashrate s) v (UpdateGraph s).

Definition set_UpdateGraph (v : bool) (s : Stats) : Stats :=
  mkStats (Hashrate s) (Address s) v.

End miner.

(** ** Package [gui]: structures declared next to [gui.go] *)

(** [Config], the session configuration. *)
Module Config.
Record t : Type := mk
  { APIEndpoint : string;
    CoinType : string;
    CoinAlgo : string;
    XmrigAlgo : string;
    XmrigVariant : string;
    HardwareType : Z;
    Mid : string;
    Address : string;
    PoolID : string;
    Miner : miner.Config }.

Definition set_CoinType (v : string) (c : t) : t :=
  mk (APIEndpoint c) v (CoinAlgo c) (XmrigAlgo c) (XmrigVariant c)
     (HardwareType c) (Mid c) (Address c) (PoolID c) (Miner c).

Definition set_Miner (v : miner.Config) (c : t) : t :=
  mk (APIEndpoint c) (CoinType c) (CoinAlgo c) (XmrigAlgo c) (XmrigVariant c)
     (HardwareType c) (Mid c) (Address c) (PoolID c) v.
End Config.

(** [frontendConfig], the configuration exchanged with the front-end. *)
Module frontendConfig.
Record t : Type := mk
  { Address : string;
    Pool : string;
    CoinType : string;
    CoinAlgo : string;
    XmrigAlgo : string;
    XmrigVariant : string;
    HardwareType : Z;
    Threads : Z;
    MaxCPU : Z }.
End frontendConfig.

(** [ElectronMessage] *)
Record ElectronMessage : Type := mkElectronMessage { Data : string }.

(** [bootstrap.MessageIn] *)
Record MessageIn : Type := mkMessageIn { Name : string; Payload : string }.

(** [os/user.User] *)
Record User : Type := mkUser { user_Name : string; user_Username : string }.

(** A pool descriptor as returned by the pool API. *)
Record MiningPorts : Type := mkMiningPorts { Cpu : string; Gpu : string }.
Record PoolData : Type := mkPoolData
  { pool_ID : string;
    pool_MiningPorts : MiningPorts;
    pool_Config : string }.

(** Network statistics are opaque to the coordinator. *)
Definition NetworkStats : Type := string.

(** A parsed [html/template]: its [Execute] on one pool descriptor. *)
Definition Template : Type := PoolData -> string + error.

(** ** Values crossing the [interface{}] boundary *)

(** The values that [gui.go] hands to [json.Marshal]. *)
Inductive GoValue : Type :=
| VMessage (m : ElectronMessage)
| VStats (s : miner.Stats)
| VFrontendConfig (c : frontendConfig.t)
| VProcessingConfig (p : miner.ProcessingConfig).

(** Replies and payloads are [interface{}] values: [nil], a Go string, the
    string holding the JSON text of a value, or a network-stats structure. *)
Inductive any : Type :=
| Nil
| Str (s : string)
| JsonOf (v : GoValue)
| Net (n : NetworkStats).

(** ** Observable effects *)

Inductive level : Type := Debug | Info | Warning | Error | Fatal.

Inductive Effect : Type :=
| SendMessage (name : string) (payload : any)
| MinerStart (r : option error)
| MinerStop (r : option error)
| MinerGetStats (r : miner.Stats + error)
| MinerGetProcessingConfig (r : miner.ProcessingConfig)
| MinerWriteConfig (poolAddress address coinAlgo xmrigAlgo xmrigVariant : string)
                   (pc : miner.ProcessingConfig) (r : option error)
| DetermineMinerTypeCall (scanPath : string)
| CreateMinerCall (c : miner.Config)
| ApiGetPoolList
| ApiGetPool (poolID : string)
| ApiGetStats (poolID : string) (hashrate : float) (mid : string)
| StoreSaveConfig (c : Config.t)
| ClockNow (t : Z)
| UuidNew (id : string)
| OpenFileCall (path : string)
| Sleep (seconds : Z)
| Log (lvl : level) (msg : string).

(** How a Go call ends: it returns, the process exits ([os.Exit] behind
    [Fatalf]), or the goroutine panics (nil dereference). *)
Inductive Outcome (A : Type) : Type :=
| Ret (a : A)
| Exit
| Panic.
Arguments Ret {A} a.
Arguments Exit {A}.
Arguments Panic {A}.

(** ** The coordinator over an abstract world *)

Section Coordinator.

Variable W : Type.

(** The [miner.Miner] interface.  Every operation acts on the world (the
    external miner process lives there); [GetName] is a constant of the
    driver. *)
Record Miner : Type := mkMiner
  { Start : W -> option error * W;
    Stop : W -> option error * W;
    GetStats : W -> (miner.Stats + error) * W;
    GetProcessingConfig : W -> miner.ProcessingConfig * W;
    WriteConfig : string -> string -> string -> string -> string ->
                  miner.ProcessingConfig -> W -> option error * W;
    GetName : string }.

(** [GUI]: the fields of the coordinator that carry state.  The window, the
    logger and the tickers are represented by the effects they produce;
    [startPage] stands for the homepage stored in the Astilectron options. *)
Record GUI : Type := mkGUI
  { config : option Config.t;
    inDebugMode : bool;
    miner : option Miner;
    workingDir : string;
    lastHashrate : float;
    startPage : string }.

Definition set_config (v : option Config.t) (g : GUI) : GUI :=
  mkGUI v (inDebugMode g) (miner g) (workingDir g) (lastHashrate g) (startPage g).

Definition set_miner (v : option Miner) (g : GUI) : GUI :=
  mkGUI (config g) (inDebugMode g) v (workingDir g) (lastHashrate g) (startPage g).

Definition set_lastHashrate (v : float) (g : GUI) : GUI :=
  mkGUI (config g) (inDebugMode g) (miner g) (workingDir g) v (startPage g).

Definition set_startPage (v : string) (g : GUI) : GUI :=
  mkGUI (config g) (inDebugMode g) (miner g) (workingDir g) (lastHashrate g) v.

(** The collaborators of [gui.go].  Methods of [*GUI] defined in other files
    of the package receive the coordinator they are called on. *)
Record Env : Type := mkEnv
  { user_Current : W -> (User + error) * W;
    filepath_Join : string -> string -> string;
    DetermineMinerType : string -> W -> (string * string + error) * W;
    CreateMiner : miner.Config -> W -> (Miner + error) * W;
    GetPoolList : GUI -> W -> (list PoolData + error) * W;
    GetPoolTemplate : GUI -> W -> (Template + error) * W;
    GetPool : GUI -> string -> W -> (PoolData + error) * W;
    GetNetworkStats : GUI -> string -> float -> string -> W -> (NetworkStats + error) * W;
    GetCoinContentJson : GUI -> W -> (string + error) * W;
    SaveConfig : GUI -> Config.t -> W -> option error * W;
    bootstrap_SendMessage : string -> any -> W -> option error * W;
    json_Unmarshal : string -> frontendConfig.t + error;
    json_Marshal_error : GoValue -> option error;
    time_Now : W -> Z * W;
    uuid_New : W -> string * W;
    os_OpenFile : string -> W -> option error * W }.

Variable env : Env.

(** *** A state, trace and termination monad *)

Definition Result (A : Type) : Type := (Outcome A * (GUI * W) * list Effect)%type.

Definition M (A : Type) : Type := GUI -> W -> Result A.

Definition ret {A : Type} (a : A) : M A := fun g w => (Ret a, (g, w), []).

Definition bind {A B : Type} (m : M A) (k : A -> M B) : M B :=
  fun g w =>
    match m g w with
    | (Ret a, (g1, w1), t1) =>
        match k a g1 w1 with
        | (o, s2, t2) => (o, s2, t1 ++ t2)
        end
    | (Exit, s1, t1) => (Exit, s1, t1)
    | (Panic, s1, t1) => (Panic, s1, t1)
    end.

Notation "x <- m ;; k" := (bind m (fun x => k))
  (at level 61, m at next level, right associativity).
Notation "m ;; k" := (bind m (fun _ => k))
  (at level 61, right associativity).

Definition outcome {A : Type} (r : Result A) : Outcome A := fst (fst r).
Definition final_gui {A : Type} (r : Result A) : GUI := fst (snd (fst r)).
Definition final_world {A : Type} (r : Result A) : W := snd (snd (fst r)).
Definition trace {A : Type} (r : Result A) : list Effect := snd r.

Definition get_gui : M GUI := fun g w => (Ret g, (g, w), []).
Definition modify_gui (f : GUI -> GUI) : M unit := fun g w => (Ret tt, (f g, w), []).
Definition emit (e : Effect) : M unit := fun g w => (Ret tt, (g, w), [e]).
Definition exit {A : Type} : M A := fun g w => (Exit, (g, w), []).
Definition panic {A : Type} : M A := fun g w => (Panic, (g, w), []).

(** A call to a collaborator: the world answers, and the call is recorded
    by the effect [ev] built from the answer. *)
Definition call {A : Type} (f : W -> A * W) (ev : A -> list Effect) : M A :=
  fun g w => let (a, w1) := f w in (Ret a, (g, w1), ev a).

(** Dereferencing [gui.config], a [*Config]: a nil pointer panics. *)
Definition deref_config : M Config.t :=
  g <- get_gui ;;
  match config g with
  | Some c => ret c
  | None => panic
  end.

Definition update_config (f : Config.t -> Config.t) : M unit :=
  c <- deref_config ;;
  modify_gui (set_config (Some (f c))).

(** Calling a method on [gui.miner], an interface value: nil panics. *)
Definition deref_miner : M Miner :=
  g <- get_gui ;;
  match miner g with
  | Some m => ret m
  | None => panic
  end.

(** The loggers: [Fatalf] logs and then calls [os.Exit(1)]. *)
Definition logger (lvl : level) (msg : string) : M unit := emit (Log lvl msg).
Definition Fatalf {A : Type} (msg : string) : M A := logger Fatal msg ;; exit.

Definition time_Sleep (seconds : Z) : M unit := emit (Sleep seconds).

(** [json.Marshal v] followed by [string(bytes)]: on failure the bytes are
    nil and the string is empty. *)
Definition json_Marshal (v : GoValue) : any * option error :=
  match json_Marshal_error env v with
  | Some e => (Str "", Some e)
  | None => (JsonOf v, None)
  end.

Definition SendMessage_ (name : string) (payload : any) : M (option error) :=
  emit (SendMessage name payload) ;;
  call (bootstrap_SendMessage env name payload) (fun _ => []).

(** [sendElectronCommand]: gui.go lines 680-688. *)
Definition sendElectronCommand (name : string) (data : ElectronMessage) : M (option error) :=
  let (dataBytes, err) := json_Marshal (VMessage data) in
  match err with
  | Some e => ret (Some e)
  | None => SendMessage_ name dataBytes
  end.

(** *** Lifecycle controller *)

Definition miner_Start (m : Miner) : M (option error) :=
  call (Start m) (fun r => [MinerStart r]).

Definition miner_Stop (m : Miner) : M (option error) :=
  call (Stop m) (fun r => [MinerStop r]).

Definition miner_GetStats (m : Miner) : M (miner.Stats + error) :=
  call (GetStats m) (fun r => [MinerGetStats r]).

Definition miner_GetProcessingConfig (m : Miner) : M miner.ProcessingConfig :=
  call (GetProcessingConfig m) (fun r => [MinerGetProcessingConfig r]).

Definition miner_WriteConfig (m : Miner)
    (poolAddress address coinAlgo xmrigAlgo xmrigVariant : string)
    (pc : miner.ProcessingConfig) : M (option error) :=
  call (WriteConfig m poolAddress address coinAlgo xmrigAlgo xmrigVariant pc)
       (fun r => [MinerWriteConfig poolAddress address coinAlgo xmrigAlgo xmrigVariant pc r]).

(** [startMiner]: gui.go lines 587-600.  There is no nil test before
    [gui.miner.Start()]. *)
Definition startMiner : M unit :=
  m <- deref_miner ;;
  err <- miner_Start m ;;
  match err with
  | Some e =>
      sendElectronCommand "fatal_error"
        (mkElectronMessage
           (cat ["Unable to start '"; GetName m;
                 "' miner, please check that you can run the miner from your installation directory.<br/>The error was '";
                 e; "'"])) ;;
      time_Sleep 15 ;;
      Fatalf (cat ["Error starting '"; GetName m; "': "; e])
  | None => ret tt
  end ;;
  logger Info (cat ["Started '"; GetName m; "' miner"]).

(** [stopMiner]: gui.go lines 603-619. *)
Definition stopMiner : M (option error) :=
  g <- get_gui ;;
  match miner g with
  | None => ret None
  | Some m =>
      err <- miner_Stop m ;;
      match err with
      | Some e =>
          sendElectronCommand "fatal_error"
            (mkElectronMessage
               (cat ["Unable to stop miner..Please close the GUI miner and open it again.<br/>The error was '";
                     e; "'"])) ;;
          logger Error (cat ["Unable to stop miner '"; GetName m; "': "; e]) ;;
          ret (Some e)
      | None =>
          logger Info (cat ["Stopped '"; GetName m; "' miner"]) ;;
          ret None
      end
  end.

(** *** Stats poller *)

(** [updateNetworkStats]: gui.go lines 622-640. *)
Definition updateNetworkStats : M unit :=
  logger Debug "Fetching network stats" ;;
  g <- get_gui ;;
  match config g with
  | None => logger Warning "No config set yet"
  | Some c =>
      r <- call (GetNetworkStats env g (Config.PoolID c) (lastHashrate g) (Config.Mid c))
                (fun _ => [ApiGetStats (Config.PoolID c) (lastHashrate g) (Config.Mid c)]) ;;
      match r with
      | inr e => logger Warning (cat ["Unable to get network stats: "; e])
      | inl stats =>
          err <- SendMessage_ "network_stats" (Net stats) ;;
          match err with
          | Some e => logger Error (cat ["Unable to send stats to front-end: "; e])
          | None => ret tt
          end
      end
  end.

(** Instants and durations are counted in nanoseconds, as [time.Duration]
    does. *)
Definition Minute : Z := 60 * 1000000000.

(** [d.Minutes() >= 1]: [Minutes] is the whole number of minutes of [d] plus
    the remaining nanoseconds over one minute, a fraction below one; the
    comparison holds exactly from one full minute on. *)
Definition Minutes_ge_1 (d : Z) : bool := Minute <=? d.

(** [time.Now()] *)
Definition time_Now_ : M Z := call (time_Now env) (fun t => [ClockNow t]).

(** [time.Since(t)] *)
Definition time_Since (t : Z) : M Z :=
  now <- time_Now_ ;;
  ret (now - t).

(** One iteration of the [for range gui.miningStatsTicker.C] loop of
    [updateMiningStatsLoop] (gui.go lines 646-676); [lastGraphUpdate] is the
    loop's local variable, returned updated. *)
Definition miningStatsTick (lastGraphUpdate : Z) : M Z :=
  g <- get_gui ;;
  match miner g with
  | None =>
      logger Debug "Miner not set up yet, try again later" ;;
      ret lastGraphUpdate
  | Some m =>
      logger Debug "Fetching mining stats" ;;
      r <- miner_GetStats m ;;
      match r with
      | inr e =>
          logger Debug (cat ["Unable to get mining stats, miner not available yet?: "; e]) ;;
          ret lastGraphUpdate
      | inl stats =>
          g1 <- get_gui ;;
          (if PrimFloat.eqb (lastHashrate g1) 0 && PrimFloat.ltb 0 (miner.Hashrate stats)
           then
             modify_gui (set_lastHashrate (miner.Hashrate stats)) ;;
             updateNetworkStats
           else ret tt) ;;
          modify_gui (set_lastHashrate (miner.Hashrate stats)) ;;
          c <- deref_config ;;
          let stats1 := miner.set_Address (Config.Address c) stats in
          d <- time_Since lastGraphUpdate ;;
          p <- (if Minutes_ge_1 d
                then
                  now <- time_Now_ ;;
                  ret (now, miner.set_UpdateGraph true stats1)
                else ret (lastGraphUpdate, stats1)) ;;
          let statBytes := fst (json_Marshal (VStats (snd p))) in
          err <- SendMessage_ "miner_stats" statBytes ;;
          match err with
          | Some e => logger Error (cat ["Unable to send miner stats to front-end: "; e])
          | None => ret tt
          end ;;
          ret (fst p)
      end
  end.

(** The loop over the ticks delivered by the ticker. *)
Fixpoint miningStatsTicks (ticks : nat) (lastGraphUpdate : Z) : M Z :=
  match ticks with
  | O => ret lastGraphUpdate
  | S n =>
      l <- miningStatsTick lastGraphUpdate ;;
      miningStatsTicks n l
  end.

(** [updateMiningStatsLoop]: gui.go lines 644-677, for the first [ticks]
    ticks of [gui.miningStatsTicker]. *)
Definition updateMiningStatsLoop (ticks : nat) : M Z :=
  lastGraphUpdate <- time_Now_ ;;
  miningStatsTicks ticks lastGraphUpdate.

(** *** Apply-Configuration *)

(** The fatal policy of [configureMiner]: notify the UI, wait, exit. *)
Definition fatal_configure {A : Type} (hint e : string) : M A :=
  sendElectronCommand "fatal_error"
    (mkElectronMessage
       (cat ["Unable to configure miner."; hint; "<br/>The error was '"; e; "'"])) ;;
  time_Sleep 15 ;;
  Fatalf (cat ["Unable to configure miner: '"; e; "'"]).

(** The endpoint selection of [configureMiner]: gui.go lines 539-546. *)
Definition poolAddress_of (hardwareType : Z) (poolInfo : PoolData) : string :=
  if hardwareType =? 1 then Cpu (pool_MiningPorts poolInfo)
  else if hardwareType =? 2 then Gpu (pool_MiningPorts poolInfo)
  else pool_Config poolInfo.

(** [configureMiner]: gui.go lines 455-584.  [gui.miner, err =
    miner.CreateMiner(...)] stores the constructor's first result also when
    it fails: nil, by Go's convention, just before the process exits. *)
Definition configureMiner (command : MessageIn) : M unit :=
  logger Info "Configuring miner" ;;
  newConfig <-
    match json_Unmarshal env (Payload command) with
    | inr e => fatal_configure "Please check your configuration is valid." e
    | inl c => ret c
    end ;;
  update_config (fun c =>
    Config.mk (Config.APIEndpoint c)
              (frontendConfig.CoinType newConfig)
              (frontendConfig.CoinAlgo newConfig)
              (frontendConfig.XmrigAlgo newConfig)
              (frontendConfig.XmrigVariant newConfig)
              (frontendConfig.HardwareType newConfig)
              (Config.Mid c)
              (frontendConfig.Address newConfig)
              (frontendConfig.Pool newConfig)
              (Config.Miner c)) ;;
  g <- get_gui ;;
  let scanPath := filepath_Join env (workingDir g) "miner" in
  logger Debug "Determining miner type" ;;
  r <- call (DetermineMinerType env scanPath) (fun _ => [DetermineMinerTypeCall scanPath]) ;;
  found <-
    match r with
    | inr e => fatal_configure "Could not determine the miner type." e
    | inl tp => ret tp
    end ;;
  let minerType := fst found in
  let minerPath := snd found in
  update_config (fun c =>
    Config.set_Miner (miner.mkConfig minerType minerPath (Config.HardwareType c)) c) ;;
  logger Debug "Creating miner" ;;
  c1 <- deref_config ;;
  created <- call (CreateMiner env (Config.Miner c1))
                  (fun _ => [CreateMinerCall (Config.Miner c1)]) ;;
  match created with
  | inr e =>
      modify_gui (set_miner None) ;;
      fatal_configure "" e
  | inl m => modify_gui (set_miner (Some m))
  end ;;
  logger Debug "Getting pool information" ;;
  g2 <- get_gui ;;
  c2 <- deref_config ;;
  fetched <- call (GetPool env g2 (Config.PoolID c2))
                  (fun _ => [ApiGetPool (Config.PoolID c2)]) ;;
  poolInfo <-
    match fetched with
    | inr e => fatal_configure "Please check that you are connected to the internet." e
    | inl p => ret p
    end ;;
  logger Debug "Writing miner config" ;;
  c3 <- deref_config ;;
  let poolAddress := poolAddress_of (Config.HardwareType c3) poolInfo in
  m <- deref_miner ;;
  err <- miner_WriteConfig m poolAddress
           (Config.Address c3) (Config.CoinAlgo c3)
           (Config.XmrigAlgo c3) (Config.XmrigVariant c3)
           (miner.mkProcessingConfig (frontendConfig.Threads newConfig)
                                     (frontendConfig.MaxCPU newConfig)) ;;
  match err with
  | Some e => fatal_configure "Please check that you are connected to the internet." e
  | None => ret tt
  end ;;
  logger Debug "Writing GUI config" ;;
  g4 <- get_gui ;;
  c4 <- deref_config ;;
  err <- call (SaveConfig env g4 c4) (fun _ => [StoreSaveConfig c4]) ;;
  match err with
  | Some e =>
      fatal_configure "Please check that you can write to the miner's installation path." e
  | None => ret tt
  end ;;
  logger Info "Miner configured".

(** *** Command dispatcher *)

(** The body of the [for i, poolData := range poolJSONs] loop of the
    [get-pools-list] handler (gui.go lines 322-335).  The branch [i == 3]
    is empty in the source: both of its statements are commented out. *)
Fixpoint renderPools (poolTemplate : Template) (i : nat)
    (poolJSONs : list PoolData) (poolsList : string) : M string :=
  match poolJSONs with
  | [] => ret poolsList
  | poolData :: rest =>
      match poolTemplate poolData with
      | inr e => Fatalf (cat ["Unable to load pool template: '"; e; "'"])
      | inl templateHTML =>
          let poolsList1 := if Nat.eqb i 3 then poolsList else poolsList in
          renderPools poolTemplate (S i) rest (String.append poolsList1 templateHTML)
      end
  end.

(** The statement after the [switch] (gui.go line 451), reached by every
    case that does not return and by every name without a case. *)
Definition after_switch (command : MessageIn) : M (any * option error) :=
  ret (Nil, Some (cat ["'"; Name command; "' is an unknown command"])).

(** [handleElectronCommands]: gui.go lines 247-452. *)
Definition handleElectronCommands (command : MessageIn) : M (any * option error) :=
  logger Debug "Received command from Electron" ;;
  if String.eqb (Name command) "get-username" then
    r <- call (user_Current env) (fun _ => []) ;;
    let username :=
      match r with
      | inl currentUser =>
          if negb (String.eqb (user_Name currentUser) "") then user_Name currentUser
          else if negb (String.eqb (user_Username currentUser) "") then user_Username currentUser
          else ""
      | inr _ => ""
      end in
    ret (Str username, None)
  else if String.eqb (Name command) "get-miner-path" then
    g <- get_gui ;;
    ret (Str (filepath_Join env (workingDir g) "miner"), None)
  else if String.eqb (Name command) "get-miner-type" then
    g <- get_gui ;;
    let scanPath := filepath_Join env (workingDir g) "miner" in
    r <- call (DetermineMinerType env scanPath) (fun _ => [DetermineMinerTypeCall scanPath]) ;;
    match r with
    | inl found => ret (Str (fst found), None)
    | inr _ => ret (Str "", None)
    end
  else if String.eqb (Name command) "get-pools-list" then
    newConfig <-
      match json_Unmarshal env (Payload command) with
      | inr e =>
          sendElectronCommand "fatal_error"
            (mkElectronMessage
               (cat ["Unable to fetch pool list from API.Internal error.<br/>The error was '";
                     e; "'"])) ;;
          Fatalf (cat ["Unable to fetch pool list: '"; e; "'"])
      | inl c => ret c
      end ;;
    update_config (Config.set_CoinType (frontendConfig.CoinType newConfig)) ;;
    g <- get_gui ;;
    fetched <- call (GetPoolList env g) (fun _ => [ApiGetPoolList]) ;;
    poolJSONs <-
      match fetched with
      | inr e =>
          sendElectronCommand "fatal_error"
            (mkElectronMessage
               (cat ["Unable to fetch pool list from API.Please check that you are connected to the internet and try again.<br/>The error was '";
                     e; "'"])) ;;
          time_Sleep 15 ;;
          Fatalf (cat ["Unable to fetch pool list: '"; e; "'"])
      | inl l => ret l
      end ;;
    loaded <- call (GetPoolTemplate env g) (fun _ => []) ;;
    poolTemplate <-
      match loaded with
      | inr e => Fatalf (cat ["Unable to load pool template: '"; e; "'"])
      | inl t => ret t
      end ;;
    poolsList <- renderPools poolTemplate 0 poolJSONs "" ;;
    ret (Str (String.append poolsList "</div>"), None)
  else if String.eqb (Name command) "get-processing-config" then
    g <- get_gui ;;
    match miner g with
    | None =>
        sendElectronCommand "fatal_error"
          (mkElectronMessage
             "Unable to fetch miner config.Please check that your miner is working and running.") ;;
        ret (Str "", None)
    | Some m =>
        miner_GetStats m ;;
        processingConfig <- miner_GetProcessingConfig m ;;
        let (configBytes, err) := json_Marshal (VProcessingConfig processingConfig) in
        match err with
        | Some e =>
            sendElectronCommand "fatal_error"
              (mkElectronMessage
                 (cat ["Unable to fetch miner config.Please check that your miner is working and running.<br/>The error was '";
                       e; "'"])) ;;
            ret tt
        | None => ret tt
        end ;;
        ret (configBytes, None)
    end
  else if String.eqb (Name command) "get-coins-content" then
    logger Info "Getting coins content.json" ;;
    g <- get_gui ;;
    r <- call (GetCoinContentJson env g) (fun _ => []) ;;
    match r with
    | inr e =>
        logger Error (cat ["Unable to get coins content.json: "; e]) ;;
        ret (Str "", None)
    | inl dataBytes => ret (Str dataBytes, None)
    end
  else if String.eqb (Name command) "save-configuration" then
    time_Sleep 3 ;;
    configureMiner command ;;
    ret (Str "Ok", None)
  else if String.eqb (Name command) "get-config-file" then
    logger Info "Sending config to frontend" ;;
    c <- deref_config ;;
    let currentConfig :=
      frontendConfig.mk "" "" (Config.CoinType c) (Config.CoinAlgo c)
                        (Config.XmrigAlgo c) (Config.XmrigVariant c)
                        (Config.HardwareType c) 0 0 in
    let (dataBytes, err) := json_Marshal (VFrontendConfig currentConfig) in
    match err with
    | Some e =>
        logger Error (cat ["Unable to send config to front-end: "; e]) ;;
        ret (Str "", None)
    | None => ret (dataBytes, None)
    end
  else if String.eqb (Name command) "start-miner" then
    startMiner ;;
    after_switch command
  else if String.eqb (Name command) "stop-miner" then
    err <- stopMiner ;;
    match err with
    | Some e =>
        sendElectronCommand "fatal_error"
          (mkElectronMessage
             (cat ["Unable to stop miner backend.Please close the miner and open it again.<br/>The error was '";
                   e; "'"])) ;;
        time_Sleep 15 ;;
        Fatalf (cat ["Unable to stop the miner: '"; e; "'"])
    | None => ret tt
    end ;;
    after_switch command
  else
    after_switch command.

(** *** Construction *)

(** The part of [New] (gui.go lines 66-227) that runs on the coordinator
    under construction; it yields the error returned with a nil coordinator,
    if any. *)
Definition New_setup (apiEndpoint coinType coinAlgo XmrigAlgo XmrigVariant : string)
    : M (option error) :=
  g <- get_gui ;;
  failed <-
    match config g with
    | Some c =>
        modify_gui (set_startPage "index.html") ;;
        update_config (fun c0 =>
          Config.set_Miner
            (miner.mkConfig (miner.Type_ (Config.Miner c0)) (miner.Path (Config.Miner c0))
                            (Config.HardwareType c0)) c0) ;;
        c1 <- deref_config ;;
        created <- call (CreateMiner env (Config.Miner c1))
                        (fun _ => [CreateMinerCall (Config.Miner c1)]) ;;
        match created with
        | inr e =>
            ret (Some (cat ["Unable to use '"; miner.Type_ (Config.Miner c1);
                            "' as miner: "; e]))
        | inl m => modify_gui (set_miner (Some m)) ;; ret None
        end
    | None =>
        mid <- call (uuid_New env) (fun id => [UuidNew id]) ;;
        modify_gui (set_config (Some
          (Config.mk apiEndpoint coinType coinAlgo XmrigAlgo XmrigVariant 1 mid
                     "" "" (miner.mkConfig "" "" 0)))) ;;
        ret None
    end ;;
  match failed with
  | Some e => ret (Some e)
  | None =>
      g1 <- get_gui ;;
      (if inDebugMode g1 then
         let path := filepath_Join env (workingDir g1) "debug.log" in
         err <- call (os_OpenFile env path) (fun _ => [OpenFileCall path]) ;;
         match err with
         | Some _ => panic
         | None => ret tt
         end
       else ret tt) ;;
      logger Info "Setup complete" ;;
      ret None
  end.

(** [New]: gui.go lines 49-228.  It returns the coordinator or an error. *)
Definition New (appName : string) (config : option Config.t)
    (apiEndpoint coinType coinAlgo XmrigAlgo XmrigVariant workingDir : string)
    (isDebug : bool) (w : W) : Outcome (GUI + error) * W * list Effect :=
  if String.eqb apiEndpoint "" then
    (Ret (inr "The API Endpoint must be specified"), w, [])
  else
    let gui := mkGUI config isDebug None workingDir 0%float "firstrun.html" in
    match New_setup apiEndpoint coinType coinAlgo XmrigAlgo XmrigVariant gui w with
    | (Ret None, (g, w1), t) => (Ret (inl g), w1, t)
    | (Ret (Some e), (_, w1), t) => (Ret (inr e), w1, t)
    | (Exit, (_, w1), t) => (Exit, w1, t)
    | (Panic, (_, w1), t) => (Panic, w1, t)
    end.

(** [OnWait] (gui.go lines 200-223): the pollers are started and one
    network-stats update runs at once. *)
Definition OnWait : M unit :=
  logger Info "Start capturing mining stats" ;;
  updateNetworkStats.

(** [Run]: gui.go lines 231-244.  [bootstrap.Run] blocks until the Electron
    application ends; it is given as the computation [application], which
    yields the error it returns.  The tickers are not part of [GUI]:
    stopping them leaves no mark. *)
Definition Run (application : M (option error)) : M (option error) :=
  logger Info "Starting miner" ;;
  err <- application ;;
  match err with
  | Some e => ret (Some e)
  | None =>
      err1 <- stopMiner ;;
      match err1 with
      | Some e => ret (Some e)
      | None => ret None
      end
  end.

End Coordinator.

Arguments mkMiner {W}.
Arguments mkGUI {W}.
Arguments mkEnv {W}.
Arguments Start {W}.
Arguments Stop {W}.
Arguments GetStats {W}.
Arguments GetProcessingConfig {W}.
Arguments WriteConfig {W}.
Arguments GetName {W}.
Arguments config {W}.
Arguments inDebugMode {W}.
Arguments miner {W}.
Arguments workingDir {W}.
Arguments lastHashrate {W}.
Arguments startPage {W}.
Arguments user_Current {W}.
Arguments filepath_Join {W}.
Arguments DetermineMinerType {W}.
Arguments CreateMiner {W}.
Arguments GetPoolList {W}.
Arguments GetPoolTemplate {W}.
Arguments GetPool {W}.
Arguments GetNetworkStats {W}.
Arguments GetCoinContentJson {W}.
Arguments SaveConfig {W}.
Arguments bootstrap_SendMessage {W}.
Arguments json_Unmarshal {W}.
Arguments json_Marshal_error {W}.
Arguments time_Now {W}.
Arguments uuid_New {W}.
Arguments os_OpenFile {W}.
Arguments ret {W A}.
Arguments bind {W A B}.
Arguments get_gui {W}.
Arguments modify_gui {W}.
Arguments emit {W}.
Arguments exit {W A}.
Arguments panic {W A}.
Arguments call {W A}.
Arguments deref_config {W}.
Arguments update_config {W}.
Arguments deref_miner {W}.
Arguments logger {W}.
Arguments Fatalf {W A}.
Arguments time_Sleep {W}.
Arguments SendMessage_ {W}.
Arguments miner_Start {W}.
Arguments miner_Stop {W}.
Arguments miner_GetStats {W}.
Arguments miner_GetProcessingConfig {W}.
Arguments miner_WriteConfig {W}.
Arguments time_Now_ {W}.
Arguments time_Since {W}.
Arguments fatal_configure {W} env {A}.
Arguments set_config {W}.
Arguments set_miner {W}.
Arguments set_lastHashrate {W}.
Arguments set_startPage {W}.
Arguments outcome {W A}.
Arguments final_gui {W A}.
Arguments final_world {W A}.
Arguments trace {W A}.
Arguments json_Marshal {W}.
Arguments sendElectronCommand {W}.
Arguments startMiner {W}.
Arguments stopMiner {W}.
Arguments updateNetworkStats {W}.
Arguments miningStatsTick {W}.
Arguments miningStatsTicks {W}.
Arguments updateMiningStatsLoop {W}.
Arguments configureMiner {W}.
Arguments renderPools {W}.
Arguments after_switch {W}.
Arguments handleElectronCommands {W}.
Arguments New_setup {W}.
Arguments New {W}.
Arguments OnWait {W}.
Arguments Run {W}.

(** ** A session: the pollers and the dispatcher interleaved

    The two pollers and the dispatcher run as separate goroutines over the
    same coordinator.  A session is observed as a sequence of activities,
    each run to completion before the next starts. *)

Inductive Activity : Type :=
| MiningTick
| NetworkTick
| Command (c : MessageIn).

(** One activity; the mining loop's [lastGraphUpdate] is threaded along. *)
Definition run_activity {W : Type} (env : Env W) (a : Activity) (lastGraphUpdate : Z)
    : M W Z :=
  match a with
  | MiningTick => miningStatsTick env lastGraphUpdate
  | NetworkTick =>
      bind (updateNetworkStats env) (fun _ => ret lastGraphUpdate)
  | Command c =>
      bind (handleElectronCommands env c) (fun _ => ret lastGraphUpdate)
  end.

Fixpoint run_session {W : Type} (env : Env W) (acts : list Activity) (lastGraphUpdate : Z)
    : M W Z :=
  match acts with
  | [] => ret lastGraphUpdate
  | a :: rest =>
      bind (run_activity env a lastGraphUpdate) (run_session env rest)
  end.

(** ** Reading traces *)

(** [contains needle hay]: [needle] occurs in [hay]. *)
Definition contains (needle hay : string) : Prop :=
  exists pre post, hay = String.append pre (String.append needle post).

(** The number of events sent to the UI under the name [name]. *)
Fixpoint count_events (name : string) (tr : list Effect) : nat :=
  match tr with
  | [] => O
  | SendMessage n _ :: rest =>
      if String.eqb n name then S (count_events name rest) else count_events name rest
  | _ :: rest => count_events name rest
  end.

(** The number of network-stats fetches. *)
Fixpoint count_fetches (tr : list Effect) : nat :=
  match tr with
  | [] => O
  | ApiGetStats _ _ _ :: rest => S (count_fetches rest)
  | _ :: rest => count_fetches rest
  end.

(** The number of operations invoked on the miner backend. *)
Fixpoint count_backend_ops (tr : list Effect) : nat :=
  match tr with
  | [] => O
  | MinerStart _ :: rest
  | MinerStop _ :: rest
  | MinerGetStats _ :: rest
  | MinerGetProcessingConfig _ :: rest
  | MinerWriteConfig _ _ _ _ _ _ _ :: rest => S (count_backend_ops rest)
  | _ :: rest => count_backend_ops rest
  end.

(** The hashrates the backend reported, in order. *)
Fixpoint observed (tr : list Effect) : list float :=
  match tr with
  | [] => []
  | MinerGetStats (inl s) :: rest => miner.Hashrate s :: observed rest
  | _ :: rest => observed rest
  end.

(** The last element of [hs], or [h] when there is none. *)
Definition last_hashrate (h : float) (hs : list float) : float := last hs h.

(** The steps of a hashrate sequence from a zero value to a positive one,
    starting from the last-observed value [h]. *)
Fixpoint rises_from_zero (h : float) (hs : list float) : nat :=
  match hs with
  | [] => O
  | x :: rest =>
      ((if PrimFloat.eqb h 0 && PrimFloat.ltb 0 x then 1 else 0)
       + rises_from_zero x rest)%nat
  end.

(** The clock never runs backwards along the trace, from [clock] on. *)
Fixpoint clock_monotone (clock : Z) (tr : list Effect) : Prop :=
  match tr with
  | [] => True
  | ClockNow t :: rest => clock <= t /\ clock_monotone t rest
  | _ :: rest => clock_monotone clock rest
  end.

(** The backend leaves the graph hint of its statistics unset. *)
Fixpoint backend_hint_unset (tr : list Effect) : Prop :=
  match tr with
  | [] => True
  | MinerGetStats (inl s) :: rest =>
      miner.UpdateGraph s = false /\ backend_hint_unset rest
  | _ :: rest => backend_hint_unset rest
  end.

(** The graph hint carried by an event, if it is a local-stats emission. *)
Definition graph_hint (e : Effect) : bool :=
  match e with
  | SendMessage name (JsonOf (VStats s)) =>
      String.eqb name "miner_stats" && miner.UpdateGraph s
  | _ => false
  end.

(** The throttle of the graph hint, read on a trace: [lastSet] is the
    instant at which the hint was last set (the start of the loop before
    the first time) and [clock] the latest instant read.  Every emission
    that carries the hint comes at least one minute after [lastSet]. *)
Fixpoint graph_hint_throttled (lastSet clock : Z) (tr : list Effect) : Prop :=
  match tr with
  | [] => True
  | ClockNow t :: rest => graph_hint_throttled lastSet t rest
  | e :: rest =>
      if graph_hint e
      then Minute <= clock - lastSet /\ graph_hint_throttled clock clock rest
      else graph_hint_throttled lastSet clock rest
  end.

(** ** The specification's reading of some commands *)

(** The command names that have a case in the dispatcher. *)
Definition recognized : list string :=
  ["get-username"; "get-miner-path"; "get-miner-type"; "get-pools-list";
   "get-processing-config"; "get-coins-content"; "save-configuration";
   "get-config-file"; "start-miner"; "stop-miner"].

Definition is_recognized (name : string) : bool :=
  existsb (String.eqb name) recognized.

(** The dispatcher answered with the unknown-command error. *)
Definition is_unknown_command_error {W : Type} (c : MessageIn)
    (r : Result W (any * option error)) : Prop :=
  outcome r = Ret (Nil, Some (cat ["'"; Name c; "' is an unknown command"])).

(** The specification's pool list: the fragments in order, with a cut-off
    marker after the entry number [k], possibly followed by a trailer. *)
Definition has_cutoff_marker (k : nat) (fragments : list string) (markup : string) : Prop :=
  exists marker trailer,
    marker <> "" /\
    markup = String.append (cat (firstn k fragments))
               (String.append marker
                  (String.append (cat (skipn k fragments)) trailer)).

(** The specification's outcome of a failed stop: the caller gets the error
    back (so the process is still running) and exactly one [fatal_error]
    event went out. *)
Definition stop_failure_reported {W : Type} (e : error)
    (r : Result W (any * option error)) : Prop :=
  (exists reply, outcome r = Ret (reply, Some e)) /\
  count_events "fatal_error" (trace r) = 1%nat.

(** The specification's single fetch: the mining loop triggers at most one
    immediate network-stats fetch in a session. *)
Definition fetches_at_most_once (tr : list Effect) : Prop :=
  (count_fetches tr <= 1)%nat.

(** The specification's monotonic hashrate: a step of the loop never
    lowers the last-observed hashrate. *)
Definition hashrate_not_lowered {W : Type} (before after : GUI W) : Prop :=
  PrimFloat.leb (lastHashrate before) (lastHashrate after) = true.

(** ** Sample collaborators, used to run the coordinator *)

(** A world made of a clock and of the hashrates the backend will report. *)
Definition World : Type := (Z * list float)%type.

Definition sample_miner (startErr stopErr : option error) : Miner World :=
  mkMiner
    (fun w => (startErr, w))
    (fun w => (stopErr, w))
    (fun w =>
       match snd w with
       | [] => (inr "miner not available", w)
       | h :: rest => (inl (miner.mkStats h "" false), (fst w, rest))
       end)
    (fun w => (miner.mkProcessingConfig 4 80, w))
    (fun _ _ _ _ _ _ w => (None, w))
    "xmrig".

Definition sample_pool (id : string) : PoolData :=
  mkPoolData id (mkMiningPorts "p1:1111" "p1:2222") "p1:3333".

(** Collaborators that always answer; the payload of a command is decoded
    as the coin type of a fixed configuration with hardware profile [hw],
    the pool template prints the identifier of the pool, and every reading
    of the clock advances it by [step] nanoseconds. *)
Definition sample_env (startErr stopErr : option error) (pools : list string)
    (hw : Z) (step : Z) : Env World :=
  mkEnv
    (fun w => (inl (mkUser "Ada" "ada"), w))
    (fun dir name => cat [dir; "/"; name])
    (fun scanPath w => (inl ("xmrig", cat [scanPath; "/xmrig"]), w))
    (fun _ w => (inl (sample_miner startErr stopErr), w))
    (fun _ w => (inl (map sample_pool pools), w))
    (fun _ w => (inl (fun p : PoolData => inl (pool_ID p)), w))
    (fun _ id w => (inl (sample_pool id), w))
    (fun _ _ _ _ w => (inl "network", w))
    (fun _ w => (inl "{}", w))
    (fun _ _ w => (None, w))
    (fun _ _ w => (None, w))
    (fun payload => inl (frontendConfig.mk "addr1" "pool1" payload "cn" "cn/r" "r" hw 4 80))
    (fun _ => None)
    (fun w => (fst w, (fst w + step, snd w)))
    (fun w => ("4b1f-0001", w))
    (fun _ w => (None, w)).

Definition sample_config : Config.t :=
  Config.mk "https://api" "BLOC" "cn" "cn/r" "r" 1 "4b1f-0001" "addr1" "pool1"
            (miner.mkConfig "xmrig" "/opt/miner/xmrig" 1).

(** A configured coordinator and an unconfigured one. *)
Definition sample_gui (startErr stopErr : option error) : GUI World :=
  mkGUI (Some sample_config) false (Some (sample_miner startErr stopErr))
        "/opt" 0%float "index.html".

Definition fresh_gui : GUI World :=
  mkGUI (Some sample_config) false None "/opt" 0%float "firstrun.html".

(** ** Notions used by the proofs *)

(** The UI messages of a failed stop: the one of [stopMiner] and the one of
    the dispatcher. *)
Definition stop_message (e : error) : ElectronMessage :=
  mkElectronMessage
    (cat ["Unable to stop miner..Please close the GUI miner and open it again.<br/>The error was '";
          e; "'"]).

Definition stop_dispatch_message (e : error) : ElectronMessage :=
  mkElectronMessage
    (cat ["Unable to stop miner backend.Please close the miner and open it again.<br/>The error was '";
          e; "'"]).

(** An event that neither reads the clock nor carries the graph hint. *)
Definition timeless (e : Effect) : Prop :=
  graph_hint e = false /\
  match e with
  | ClockNow _ => False
  | _ => True
  end.

(** The state of the throttle after a trace: the instant at which the hint
    was last set and the latest instant read. *)
Fixpoint throttle_after (lastSet clock : Z) (tr : list Effect) : Z * Z :=
  match tr with
  | [] => (lastSet, clock)
  | ClockNow t :: rest => throttle_after lastSet t rest
  | e :: rest =>
      if graph_hint e
      then throttle_after clock clock rest
      else throttle_after lastSet clock rest
  end.

(** [m] leaves the projection [proj] of the coordinator as it is and emits
    only events that satisfy [P]. *)
Definition respects {W A B : Type} (proj : GUI W -> B) (P : Effect -> Prop)
    (m : M W A) : Prop :=
  forall (g : GUI W) (w : W),
    proj (final_gui (m g w)) = proj g /\ Forall P (trace (m g w)).

(** ** Further readings of traces *)

(** The session configurations handed to the configuration store. *)
Fixpoint saved_configs (tr : list Effect) : list Config.t :=
  match tr with
  | [] => []
  | StoreSaveConfig c :: rest => c :: saved_configs rest
  | _ :: rest => saved_configs rest
  end.

(** The backend configurations handed to [miner.CreateMiner]. *)
Fixpoint created_backends (tr : list Effect) : list miner.Config :=
  match tr with
  | [] => []
  | CreateMinerCall c :: rest => c :: created_backends rest
  | _ :: rest => created_backends rest
  end.

(** The network-stats fetches: pool, hashrate and session identifier. *)
Fixpoint fetches (tr : list Effect) : list (string * float * string) :=
  match tr with
  | [] => []
  | ApiGetStats p h m :: rest => (p, h, m) :: fetches rest
  | _ :: rest => fetches rest
  end.

(** The local statistics emitted to the UI, read back from their JSON. *)
Fixpoint emitted_stats (tr : list Effect) : list miner.Stats :=
  match tr with
  | [] => []
  | SendMessage name (JsonOf (VStats s)) :: rest =>
      if String.eqb name "miner_stats" then s :: emitted_stats rest
      else emitted_stats rest
  | _ :: rest => emitted_stats rest
  end.

(** The backend accepted a configuration. *)
Fixpoint write_succeeded (tr : list Effect) : bool :=
  match tr with
  | [] => false
  | MinerWriteConfig _ _ _ _ _ _ None :: _ => true
  | _ :: rest => write_succeeded rest
  end.

(** The trace ends with the grace period and the fatal log line that
    precede [os.Exit]. *)
Definition ends_with_grace_exit (tr : list Effect) : bool :=
  match rev tr with
  | Log Fatal _ :: Sleep 15 :: _ => true
  | _ => false
  end.

(** The event starts the backend, or stops it. *)
Definition is_start (e : Effect) : bool :=
  match e with
  | MinerStart _ => true
  | _ => false
  end.

Definition is_stop (e : Effect) : bool :=
  match e with
  | MinerStop _ => true
  | _ => false
  end.

(** The event reconfigures: it creates a backend, writes the backend's
    configuration or writes to the configuration store. *)
Definition is_reconfiguration (e : Effect) : bool :=
  match e with
  | MinerWriteConfig _ _ _ _ _ _ _ | CreateMinerCall _ | StoreSaveConfig _ => true
  | _ => false
  end.

(** The event changes something outside the coordinator. *)
Definition is_mutation (e : Effect) : bool :=
  is_start e || is_stop e || is_reconfiguration e.

(** The event is one that the command [name] asks for: the backend is
    started only by [start-miner], stopped only by [stop-miner] and
    reconfigured only by [save-configuration]. *)
Definition on_request (name : string) (e : Effect) : Prop :=
  (is_start e = true -> name = "start-miner") /\
  (is_stop e = true -> name = "stop-miner") /\
  (is_reconfiguration e = true -> name = "save-configuration").

(** The parts of the coordinator that no command and no poller writes. *)
Definition fixed_part {W : Type} (g : GUI W) : bool * string * string :=
  (inDebugMode g, workingDir g, startPage g).

(** The session that a decoded payload [n] yields from the session [c] and
    the detected backend [(minerType, minerPath)]. *)
Definition applied_session (c : Config.t) (n : frontendConfig.t)
    (minerType minerPath : string) : Config.t :=
  Config.mk (Config.APIEndpoint c)
            (frontendConfig.CoinType n) (frontendConfig.CoinAlgo n)
            (frontendConfig.XmrigAlgo n) (frontendConfig.XmrigVariant n)
            (frontendConfig.HardwareType n) (Config.Mid c)
            (frontendConfig.Address n) (frontendConfig.Pool n)
            (miner.mkConfig minerType minerPath (frontendConfig.HardwareType n)).

(** The user-editable part of a front-end configuration, as
    [get-config-file] shows it. *)
Definition shown_config (n : frontendConfig.t) : frontendConfig.t :=
  frontendConfig.mk "" "" (frontendConfig.CoinType n) (frontendConfig.CoinAlgo n)
                    (frontendConfig.XmrigAlgo n) (frontendConfig.XmrigVariant n)
                    (frontendConfig.HardwareType n) 0 0.

(** The part of the coordinator that the command [name] leaves alone:
    the session unless the command is [save-configuration] or
    [get-pools-list], the backend unless it is [save-configuration], and
    always the debug flag, the working directory, the start page and the
    last-observed hashrate. *)
Definition untouched_by {W : Type} (name : string) (g : GUI W)
    : option (option Config.t) * option (option (Miner W))
      * (bool * string * string) * float :=
  (if String.eqb name "save-configuration" || String.eqb name "get-pools-list"
   then None else Some (config g),
   if String.eqb name "save-configuration" then None else Some (miner g),
   fixed_part g,
   lastHashrate g).

(** What the dispatcher may return for the command [name]: a reply without
    error, or a nil reply with the unknown-command error, the latter only
    for [start-miner], [stop-miner] and names without a case. *)
Definition reply_ok (name : string) (a : any * option error) : Prop :=
  snd a = None \/
  (a = (Nil, Some (cat ["'"; name; "' is an unknown command"])) /\
   (name = "start-miner" \/ name = "stop-miner" \/ is_recognized name = false)).

(** [m], run on a coordinator that satisfies [I], panics only if
    [CanPanic], and when it returns it keeps [I] and its value satisfies
    [Q]. *)
Definition ends {W A : Type} (I : GUI W -> Prop) (CanPanic : Prop) (Q : A -> Prop)
    (m : M W A) : Prop :=
  forall (g : GUI W) (w : W),
    I g ->
    (outcome (m g w) = Panic -> CanPanic) /\
    (forall a, outcome (m g w) = Ret a -> I (final_gui (m g w)) /\ Q a).

(** What a fetch triggered by the mining loop carries: the session's pool
    and identifier, and a positive hashrate that the backend reported. *)
Definition fresh_fetch (c : Config.t) (reported : list float)
    (f : string * float * string) : Prop :=
  fst (fst f) = Config.PoolID c /\
  snd f = Config.Mid c /\
  PrimFloat.ltb 0 (snd (fst f)) = true /\
  In (snd (fst f)) reported.

(** ** Collaborators that fail *)

(** [env] with another JSON decoder. *)
Definition with_json_Unmarshal {W : Type} (decode : string -> frontendConfig.t + error)
    (env : Env W) : Env W :=
  mkEnv (user_Current env) (filepath_Join env) (DetermineMinerType env)
        (CreateMiner env) (GetPoolList env) (GetPoolTemplate env) (GetPool env)
        (GetNetworkStats env) (GetCoinContentJson env) (SaveConfig env)
        (bootstrap_SendMessage env) decode (json_Marshal_error env)
        (time_Now env) (uuid_New env) (os_OpenFile env).

(** [env] with another detection of the bundled miner. *)
Definition with_DetermineMinerType {W : Type}
    (detect : string -> W -> (string * string + error) * W) (env : Env W) : Env W :=
  mkEnv (user_Current env) (filepath_Join env) detect
        (CreateMiner env) (GetPoolList env) (GetPoolTemplate env) (GetPool env)
        (GetNetworkStats env) (GetCoinContentJson env) (SaveConfig env)
        (bootstrap_SendMessage env) (json_Unmarshal env) (json_Marshal_error env)
        (time_Now env) (uuid_New env) (os_OpenFile env).

(** [env] with another backend constructor. *)
Definition with_CreateMiner {W : Type}
    (create : miner.Config -> W -> (Miner W + error) * W) (env : Env W) : Env W :=
  mkEnv (user_Current env) (filepath_Join env) (DetermineMinerType env)
        create (GetPoolList env) (GetPoolTemplate env) (GetPool env)
        (GetNetworkStats env) (GetCoinContentJson env) (SaveConfig env)
        (bootstrap_SendMessage env) (json_Unmarshal env) (json_Marshal_error env)
        (time_Now env) (uuid_New env) (os_OpenFile env).

(** [env] with another pool API for the network statistics. *)
Definition with_GetNetworkStats {W : Type}
    (fetch : GUI W -> string -> float -> string -> W -> (NetworkStats + error) * W)
    (env : Env W) : Env W :=
  mkEnv (user_Current env) (filepath_Join env) (DetermineMinerType env)
        (CreateMiner env) (GetPoolList env) (GetPoolTemplate env) (GetPool env)
        fetch (GetCoinContentJson env) (SaveConfig env)
        (bootstrap_SendMessage env) (json_Unmarshal env) (json_Marshal_error env)
        (time_Now env) (uuid_New env) (os_OpenFile env).

(** [env] with another lookup of the current user. *)
Definition with_user_Current {W : Type} (lookup : W -> (User + error) * W)
    (env : Env W) : Env W :=
  mkEnv lookup (filepath_Join env) (DetermineMinerType env)
        (CreateMiner env) (GetPoolList env) (GetPoolTemplate env) (GetPool env)
        (GetNetworkStats env) (GetCoinContentJson env) (SaveConfig env)
        (bootstrap_SendMessage env) (json_Unmarshal env) (json_Marshal_error env)
        (time_Now env) (uuid_New env) (os_OpenFile env).

(** [env] with another [os.OpenFile]. *)
Definition with_os_OpenFile {W : Type} (open : string -> W -> option error * W)
    (env : Env W) : Env W :=
  mkEnv (user_Current env) (filepath_Join env) (DetermineMinerType env)
        (CreateMiner env) (GetPoolList env) (GetPoolTemplate env) (GetPool env)
        (GetNetworkStats env) (GetCoinContentJson env) (SaveConfig env)
        (bootstrap_SendMessage env) (json_Unmarshal env) (json_Marshal_error env)
        (time_Now env) (uuid_New env) open.

(** [env] with another loader of the coins' content. *)
Definition with_GetCoinContentJson {W : Type}
    (load : GUI W -> W -> (string + error) * W) (env : Env W) : Env W :=
  mkEnv (user_Current env) (filepath_Join env) (DetermineMinerType env)
        (CreateMiner env) (GetPoolList env) (GetPoolTemplate env) (GetPool env)
        (GetNetworkStats env) load (SaveConfig env)
        (bootstrap_SendMessage env) (json_Unmarshal env) (json_Marshal_error env)
        (time_Now env) (uuid_New env) (os_OpenFile env).

(** A backend whose statistics are not available. *)
Definition silent_miner : Miner World :=
  mkMiner (fun w => (None, w)) (fun w => (None, w))
          (fun w => (inr "connection refused", w))
          (fun w => (miner.mkProcessingConfig 2 50, w))
          (fun _ _ _ _ _ _ w => (None, w))
          "xmrig".

(** * Properties *)

(** Running a monadic program: the combinators are unfolded and the
    computation proceeds up to the next answer of a collaborator. *)
Ltac exec :=
  cbn [Name Payload];
  cbv beta iota zeta delta
    [bind ret get_gui modify_gui emit exit panic call deref_config update_config
     deref_miner logger Fatalf time_Sleep SendMessage_ miner_Start miner_Stop
     miner_GetStats miner_GetProcessingConfig miner_WriteConfig time_Now_
     time_Since after_switch String.eqb Ascii.eqb Bool.eqb negb
     set_config set_miner set_lastHashrate set_startPage
     Config.set_CoinType Config.set_Miner];
  cbn [app fst snd config miner workingDir lastHashrate inDebugMode startPage
       Config.APIEndpoint Config.CoinType Config.CoinAlgo Config.XmrigAlgo
       Config.XmrigVariant Config.HardwareType Config.Mid Config.Address
       Config.PoolID Config.Miner Config.set_CoinType Config.set_Miner].

Ltac exec_in H :=
  cbv beta iota zeta delta
    [set_config set_miner set_lastHashrate set_startPage
     Config.set_CoinType Config.set_Miner] in H;
  cbn [app fst snd config miner workingDir lastHashrate inDebugMode startPage
       Config.APIEndpoint Config.CoinType Config.CoinAlgo Config.XmrigAlgo
       Config.XmrigVariant Config.HardwareType Config.Mid Config.Address
       Config.PoolID Config.Miner Config.set_CoinType Config.set_Miner] in H.

(** ** The Stop and Start procedures *)

(** C9.  The Stop procedure on a coordinator without a backend instance
    ([gui.miner] is nil) returns success (a nil error), leaves the
    coordinator and the world as they are, and its trace is empty: no UI
    event is emitted and no backend operation is performed. *)
Theorem stopMiner_without_backend :
  forall (W : Type) (env : Env W) (g : GUI W) (w : W),
    miner g = None ->
    stopMiner env g w = (Ret None, (g, w), []).
Proof.
  intros W env g w Hnil.
  unfold stopMiner, bind, get_gui.
  rewrite Hnil.
  reflexivity.
Qed.

Lemma stopMiner_without_backend_witness :
  miner fresh_gui = None /\
  stopMiner (sample_env None None [] 1 1) fresh_gui (0, [])
    = (Ret None, (fresh_gui, (0, [])), []).
Proof.
  split.
  - reflexivity.
  - apply (stopMiner_without_backend World (sample_env None None [] 1 1) fresh_gui (0, [])).
    reflexivity.
Defined.

(** C10.  Dispatching [start-miner] while no backend instance exists
    ([gui.miner] is nil) panics: [startMiner] calls [gui.miner.Start()]
    without a nil test, so the dispatch ends in a panic after the
    dispatcher's own log line and before any backend operation, whereas
    [stopMiner] on the same coordinator returns normally. *)
Theorem start_miner_unconfigured_panics :
  forall (W : Type) (env : Env W) (g : GUI W) (w : W) (payload : string),
    miner g = None ->
    handleElectronCommands env (mkMessageIn "start-miner" payload) g w
      = (Panic, (g, w), [Log Debug "Received command from Electron"]) /\
    startMiner env g w = (Panic, (g, w), []) /\
    outcome (stopMiner env g w) = Ret None.
Proof.
  intros W env g w payload Hnil.
  assert (Hstart : startMiner env g w = (Panic, (g, w), [])).
  { unfold startMiner, bind, deref_miner, bind, get_gui. rewrite Hnil. reflexivity. }
  repeat split.
  - unfold handleElectronCommands. cbn [Name String.eqb Ascii.eqb Bool.eqb].
    unfold bind at 1. cbn [logger emit].
    unfold bind at 1. rewrite Hstart. reflexivity.
  - exact Hstart.
  - unfold stopMiner, bind, get_gui. rewrite Hnil. reflexivity.
Qed.

Lemma start_miner_unconfigured_panics_witness :
  miner fresh_gui = None /\
  outcome (handleElectronCommands (sample_env None None [] 1 1)
             (mkMessageIn "start-miner" "") fresh_gui (0, [])) = Panic.
Proof.
  split.
  - reflexivity.
  - destruct (start_miner_unconfigured_panics
                World (sample_env None None [] 1 1) fresh_gui (0, []) "" eq_refl)
      as [Hrun _].
    rewrite Hrun. reflexivity.
Defined.

(** ** Stop failures *)

Lemma sendElectronCommand_encoded :
  forall (W : Type) (env : Env W) (name : string) (msg : ElectronMessage)
         (g : GUI W) (w : W),
    json_Marshal_error env (VMessage msg) = None ->
    sendElectronCommand env name msg g w
      = (Ret (fst (bootstrap_SendMessage env name (JsonOf (VMessage msg)) w)),
         (g, snd (bootstrap_SendMessage env name (JsonOf (VMessage msg)) w)),
         [SendMessage name (JsonOf (VMessage msg))]).
Proof.
  intros W env name msg g w Henc.
  unfold sendElectronCommand, json_Marshal. rewrite Henc.
  unfold SendMessage_, bind, emit, call.
  destruct (bootstrap_SendMessage env name (JsonOf (VMessage msg)) w) as [r w1].
  reflexivity.
Qed.

Lemma stopMiner_failure :
  forall (W : Type) (env : Env W) (g : GUI W) (w w1 : W) (m : Miner W) (e : error),
    miner g = Some m ->
    Stop m w = (Some e, w1) ->
    json_Marshal_error env (VMessage (stop_message e)) = None ->
    stopMiner env g w
      = (Ret (Some e),
         (g, snd (bootstrap_SendMessage env "fatal_error"
                    (JsonOf (VMessage (stop_message e))) w1)),
         [MinerStop (Some e);
          SendMessage "fatal_error" (JsonOf (VMessage (stop_message e)));
          Log Error (cat ["Unable to stop miner '"; GetName m; "': "; e])]).
Proof.
  intros W env g w w1 m e Hm Hstop Henc.
  unfold stopMiner. unfold bind at 1. unfold get_gui. rewrite Hm.
  unfold bind at 1. unfold miner_Stop, call. rewrite Hstop.
  unfold bind at 1.
  fold (stop_message e).
  rewrite (sendElectronCommand_encoded W env "fatal_error" (stop_message e) g w1 Henc).
  reflexivity.
Qed.

Lemma contains_in_cat :
  forall (pre e post : string), contains e (cat [pre; e; post]).
Proof.
  intros pre e post. exists pre, post.
  unfold cat. simpl.
  replace (String.append post "") with post; [reflexivity|].
  induction post as [|c p IH]; simpl; [reflexivity | now rewrite <- IH].
Qed.

(** C1, as the code has it.  When the backend's stop operation fails with
    [e] (and the UI messages are encoded), the Stop procedure returns [e]
    to its caller without ending the process and emits exactly one
    [fatal_error] event, whose text contains [e].  The dispatcher of
    [stop-miner] does not hand that error back: it emits a second
    [fatal_error] event containing [e], sleeps 15 seconds and exits. *)
Theorem stop_failure_returned_by_stopMiner_fatal_in_dispatch :
  forall (W : Type) (env : Env W) (g : GUI W) (w w1 : W) (m : Miner W)
         (e : error) (payload : string),
    miner g = Some m ->
    Stop m w = (Some e, w1) ->
    (forall msg, json_Marshal_error env (VMessage msg) = None) ->
    let w2 := snd (bootstrap_SendMessage env "fatal_error"
                     (JsonOf (VMessage (stop_message e))) w1) in
    let w3 := snd (bootstrap_SendMessage env "fatal_error"
                     (JsonOf (VMessage (stop_dispatch_message e))) w2) in
    (stopMiner env g w
       = (Ret (Some e), (g, w2),
          [MinerStop (Some e);
           SendMessage "fatal_error" (JsonOf (VMessage (stop_message e)));
           Log Error (cat ["Unable to stop miner '"; GetName m; "': "; e])]) /\
     count_events "fatal_error" (trace (stopMiner env g w)) = 1%nat /\
     contains e (Data (stop_message e))) /\
    (handleElectronCommands env (mkMessageIn "stop-miner" payload) g w
       = (Exit, (g, w3),
          [Log Debug "Received command from Electron";
           MinerStop (Some e);
           SendMessage "fatal_error" (JsonOf (VMessage (stop_message e)));
           Log Error (cat ["Unable to stop miner '"; GetName m; "': "; e]);
           SendMessage "fatal_error" (JsonOf (VMessage (stop_dispatch_message e)));
           Sleep 15;
           Log Fatal (cat ["Unable to stop the miner: '"; e; "'"])]) /\
     count_events "fatal_error"
       (trace (handleElectronCommands env (mkMessageIn "stop-miner" payload) g w)) = 2%nat /\
     contains e (Data (stop_dispatch_message e))).
Proof.
  intros W env g w w1 m e payload Hm Hstop Henc w2 w3.
  pose proof (stopMiner_failure W env g w w1 m e Hm Hstop (Henc _)) as Hs.
  fold w2 in Hs.
  assert (Hd : handleElectronCommands env (mkMessageIn "stop-miner" payload) g w
       = (Exit, (g, w3),
          [Log Debug "Received command from Electron";
           MinerStop (Some e);
           SendMessage "fatal_error" (JsonOf (VMessage (stop_message e)));
           Log Error (cat ["Unable to stop miner '"; GetName m; "': "; e]);
           SendMessage "fatal_error" (JsonOf (VMessage (stop_dispatch_message e)));
           Sleep 15;
           Log Fatal (cat ["Unable to stop the miner: '"; e; "'"])])).
  { unfold handleElectronCommands. cbn [Name String.eqb Ascii.eqb Bool.eqb].
    unfold bind at 1. cbn [logger emit].
    unfold bind at 1. unfold bind at 1. rewrite Hs.
    unfold bind at 1. fold (stop_dispatch_message e).
    rewrite (sendElectronCommand_encoded W env "fatal_error"
               (stop_dispatch_message e) g w2 (Henc _)).
    fold w3. reflexivity. }
  split; [split; [exact Hs | split] | split; [exact Hd | split]].
  - rewrite Hs. reflexivity.
  - apply contains_in_cat.
  - rewrite Hd. reflexivity.
  - apply contains_in_cat.
Qed.

Lemma stop_failure_returned_by_stopMiner_fatal_in_dispatch_witness :
  outcome (stopMiner (sample_env None (Some "E") [] 1 1)
             (sample_gui None (Some "E")) (0, [])) = Ret (Some "E") /\
  outcome (handleElectronCommands (sample_env None (Some "E") [] 1 1)
             (mkMessageIn "stop-miner" "") (sample_gui None (Some "E")) (0, [])) = Exit.
Proof.
  pose proof (stop_failure_returned_by_stopMiner_fatal_in_dispatch
                World (sample_env None (Some "E") [] 1 1)
                (sample_gui None (Some "E")) (0, []) (0, [])
                (sample_miner None (Some "E")) "E" ""
                eq_refl eq_refl (fun _ => eq_refl)) as H.
  cbv zeta in H.
  destruct H as [[Hs _] [Hd _]].
  split.
  - rewrite Hs. reflexivity.
  - rewrite Hd. reflexivity.
Defined.

(** C1, as the specification words it, fails on the dispatcher: with a
    backend whose stop operation returns the error [E], the dispatch of
    [stop-miner] does not return to its caller (the process exits) and two
    [fatal_error] events are emitted. *)
Lemma stop_dispatch_does_not_report_and_continue :
  outcome (handleElectronCommands (sample_env None (Some "E") [] 1 1)
             (mkMessageIn "stop-miner" "") (sample_gui None (Some "E")) (0, []))
    = Exit /\
  count_events "fatal_error"
    (trace (handleElectronCommands (sample_env None (Some "E") [] 1 1)
              (mkMessageIn "stop-miner" "") (sample_gui None (Some "E")) (0, [])))
    = 2%nat /\
  ~ stop_failure_reported "E"
      (handleElectronCommands (sample_env None (Some "E") [] 1 1)
         (mkMessageIn "stop-miner" "") (sample_gui None (Some "E")) (0, [])).
Proof.
  split; [reflexivity|]. split; [reflexivity|].
  intros [[reply Hret] _].
  vm_compute in Hret.
  discriminate Hret.
Qed.

(** ** The dispatcher and the unknown-command error *)

Lemma startMiner_success :
  forall (W : Type) (env : Env W) (g : GUI W) (w w1 : W) (m : Miner W),
    miner g = Some m ->
    Start m w = (None, w1) ->
    startMiner env g w
      = (Ret tt, (g, w1),
         [MinerStart None; Log Info (cat ["Started '"; GetName m; "' miner"])]).
Proof.
  intros W env g w w1 m Hm Hstart.
  unfold startMiner. unfold bind at 1. unfold deref_miner. unfold bind at 1.
  unfold get_gui. rewrite Hm. cbn [ret app].
  unfold bind at 1. unfold miner_Start, call. rewrite Hstart.
  reflexivity.
Qed.

Lemma stopMiner_success :
  forall (W : Type) (env : Env W) (g : GUI W) (w w1 : W) (m : Miner W),
    miner g = Some m ->
    Stop m w = (None, w1) ->
    stopMiner env g w
      = (Ret None, (g, w1),
         [MinerStop None; Log Info (cat ["Stopped '"; GetName m; "' miner"])]).
Proof.
  intros W env g w w1 m Hm Hstop.
  unfold stopMiner. unfold bind at 1. unfold get_gui. rewrite Hm.
  unfold bind at 1. unfold miner_Stop, call. rewrite Hstop.
  reflexivity.
Qed.

(** C2, at the command the code gets wrong.  [start-miner] and
    [stop-miner] have a case in the dispatcher, yet when the backend starts
    (or stops) without error the case does not return: control reaches the
    statement after the switch and the caller receives a nil result
    together with the unknown-command error. *)
Theorem start_miner_success_answers_unknown_command :
  forall (W : Type) (env : Env W) (g : GUI W) (w w1 w2 : W) (m : Miner W)
         (payload : string),
    miner g = Some m ->
    Start m w = (None, w1) ->
    Stop m w = (None, w2) ->
    (is_recognized "start-miner" = true /\
     handleElectronCommands env (mkMessageIn "start-miner" payload) g w
       = (Ret (Nil, Some "'start-miner' is an unknown command"), (g, w1),
          [Log Debug "Received command from Electron";
           MinerStart None;
           Log Info (cat ["Started '"; GetName m; "' miner"])])) /\
    (is_recognized "stop-miner" = true /\
     handleElectronCommands env (mkMessageIn "stop-miner" payload) g w
       = (Ret (Nil, Some "'stop-miner' is an unknown command"), (g, w2),
          [Log Debug "Received command from Electron";
           MinerStop None;
           Log Info (cat ["Stopped '"; GetName m; "' miner"])])).
Proof.
  intros W env g w w1 w2 m payload Hm Hstart Hstop.
  split; (split; [reflexivity|]).
  - unfold handleElectronCommands. cbn [Name String.eqb Ascii.eqb Bool.eqb].
    unfold bind at 1. cbn [logger emit].
    unfold bind at 1.
    rewrite (startMiner_success W env g w w1 m Hm Hstart).
    reflexivity.
  - unfold handleElectronCommands. cbn [Name String.eqb Ascii.eqb Bool.eqb].
    unfold bind at 1. cbn [logger emit].
    unfold bind at 1. unfold bind at 1.
    rewrite (stopMiner_success W env g w w2 m Hm Hstop).
    reflexivity.
Qed.

Lemma start_miner_success_answers_unknown_command_witness :
  is_recognized "start-miner" = true /\
  is_unknown_command_error (mkMessageIn "start-miner" "")
    (handleElectronCommands (sample_env None None [] 1 1)
       (mkMessageIn "start-miner" "") (sample_gui None None) (0, [])).
Proof.
  unfold is_unknown_command_error.
  destruct (start_miner_success_answers_unknown_command
              World (sample_env None None [] 1 1) (sample_gui None None)
              (0, []) (0, []) (0, []) (sample_miner None None) ""
              eq_refl eq_refl eq_refl) as [[Hrec Hrun] _].
  split.
  - exact Hrec.
  - rewrite Hrun. reflexivity.
Defined.

(** A name without a case in the dispatcher is answered with the
    unknown-command error, and nothing else happens. *)
Lemma unrecognized_command_is_unknown :
  forall (W : Type) (env : Env W) (c : MessageIn) (g : GUI W) (w : W),
    is_recognized (Name c) = false ->
    handleElectronCommands env c g w
      = (Ret (Nil, Some (cat ["'"; Name c; "' is an unknown command"])), (g, w),
         [Log Debug "Received command from Electron"]).
Proof.
  intros W env c g w Hun.
  unfold is_recognized, recognized in Hun. cbn [existsb] in Hun.
  repeat (apply orb_false_elim in Hun; destruct Hun as [? Hun]).
  unfold handleElectronCommands.
  repeat match goal with
         | H : String.eqb _ _ = false |- _ => rewrite H; clear H
         end.
  reflexivity.
Qed.

(** ** The pool list *)

Lemma append_nil_r : forall s : string, String.append s "" = s.
Proof.
  induction s as [|c s IH]; simpl; [reflexivity | now rewrite IH].
Qed.

Lemma append_assoc :
  forall a b c : string,
    String.append (String.append a b) c = String.append a (String.append b c).
Proof.
  induction a as [|x a IH]; intros b c; simpl; [reflexivity | now rewrite IH].
Qed.

Lemma length_append :
  forall a b : string,
    String.length (String.append a b) = (String.length a + String.length b)%nat.
Proof.
  induction a as [|x a IH]; intros b; simpl; [reflexivity | now rewrite IH].
Qed.

Lemma length_cat :
  forall l : list string, String.length (cat l) = list_sum (map String.length l).
Proof.
  induction l as [|f fs IH]; [reflexivity|].
  change (cat (f :: fs)) with (String.append f (cat fs)).
  change (list_sum (map String.length (f :: fs)))
    with (String.length f + list_sum (map String.length fs))%nat.
  now rewrite length_append, IH.
Qed.

Lemma renderPools_all_rendered :
  forall (W : Type) (poolTemplate : Template) (poolJSONs : list PoolData)
         (fragments : list string),
    Forall2 (fun p f => poolTemplate p = inl f) poolJSONs fragments ->
    forall (i : nat) (poolsList : string) (g : GUI W) (w : W),
      renderPools poolTemplate i poolJSONs poolsList g w
        = (Ret (String.append poolsList (cat fragments)), (g, w), []).
Proof.
  intros W poolTemplate poolJSONs fragments Hall.
  induction Hall as [|p f ps fs Hp _ IH]; intros i poolsList g w.
  - simpl. unfold ret. now rewrite append_nil_r.
  - cbn [renderPools]. rewrite Hp.
    replace (if Nat.eqb i 3 then poolsList else poolsList) with poolsList
      by (destruct (Nat.eqb i 3); reflexivity).
    rewrite IH. cbn [cat fold_right]. now rewrite append_assoc.
Qed.

Lemma get_pools_list_run :
  forall (W : Type) (env : Env W) (g : GUI W) (w w1 w2 : W) (c : Config.t)
         (payload : string) (newConfig : frontendConfig.t)
         (poolJSONs : list PoolData) (poolTemplate : Template)
         (fragments : list string),
    json_Unmarshal env payload = inl newConfig ->
    config g = Some c ->
    let g1 := set_config
                (Some (Config.set_CoinType (frontendConfig.CoinType newConfig) c)) g in
    GetPoolList env g1 w = (inl poolJSONs, w1) ->
    GetPoolTemplate env g1 w1 = (inl poolTemplate, w2) ->
    Forall2 (fun p f => poolTemplate p = inl f) poolJSONs fragments ->
    handleElectronCommands env (mkMessageIn "get-pools-list" payload) g w
      = (Ret (Str (String.append (cat fragments) "</div>"), None), (g1, w2),
         [Log Debug "Received command from Electron"; ApiGetPoolList]).
Proof.
  intros W env g w w1 w2 c payload newConfig poolJSONs poolTemplate fragments
         Hdec Hc g1 Hlist Htpl Hall.
  subst g1. exec_in Hlist. exec_in Htpl.
  unfold handleElectronCommands. exec.
  rewrite Hdec. exec. rewrite Hc. exec.
  rewrite Hlist. exec. rewrite Htpl. exec.
  rewrite (renderPools_all_rendered W poolTemplate poolJSONs fragments Hall).
  reflexivity.
Qed.

(** C3, as the code has it.  A [get-pools-list] dispatch whose payload
    decodes, whose pool list and template load and whose pools all render
    stores the coin type of the payload in the session and returns the
    fragments of the pools, in order, followed by a closing [</div>]; the
    markup holds nothing else, at any position. *)
Theorem get_pools_list_concatenates_fragments :
  forall (W : Type) (env : Env W) (g : GUI W) (w w1 w2 : W) (c : Config.t)
         (payload : string) (newConfig : frontendConfig.t)
         (poolJSONs : list PoolData) (poolTemplate : Template)
         (fragments : list string),
    json_Unmarshal env payload = inl newConfig ->
    config g = Some c ->
    let g1 := set_config
                (Some (Config.set_CoinType (frontendConfig.CoinType newConfig) c)) g in
    GetPoolList env g1 w = (inl poolJSONs, w1) ->
    GetPoolTemplate env g1 w1 = (inl poolTemplate, w2) ->
    Forall2 (fun p f => poolTemplate p = inl f) poolJSONs fragments ->
    handleElectronCommands env (mkMessageIn "get-pools-list" payload) g w
      = (Ret (Str (String.append (cat fragments) "</div>"), None), (g1, w2),
         [Log Debug "Received command from Electron"; ApiGetPoolList]) /\
    option_map Config.CoinType (config g1) = Some (frontendConfig.CoinType newConfig) /\
    String.length (String.append (cat fragments) "</div>")
      = (list_sum (map String.length fragments) + 6)%nat.
Proof.
  intros W env g w w1 w2 c payload newConfig poolJSONs poolTemplate fragments
         Hdec Hc g1 Hlist Htpl Hall.
  split; [|split].
  - exact (get_pools_list_run W env g w w1 w2 c payload newConfig poolJSONs
             poolTemplate fragments Hdec Hc Hlist Htpl Hall).
  - subst g1. reflexivity.
  - rewrite length_append, length_cat. reflexivity.
Qed.

Lemma get_pools_list_concatenates_fragments_witness :
  handleElectronCommands (sample_env None None ["a"; "b"; "c"; "d"; "e"] 1 1)
    (mkMessageIn "get-pools-list" "BLOC") (sample_gui None None) (0, [])
  = (Ret (Str "abcde</div>", None), (sample_gui None None, (0, [])),
     [Log Debug "Received command from Electron"; ApiGetPoolList]).
Proof.
  destruct (get_pools_list_concatenates_fragments
              World (sample_env None None ["a"; "b"; "c"; "d"; "e"] 1 1)
              (sample_gui None None) (0, []) (0, []) (0, []) sample_config "BLOC"
              (frontendConfig.mk "addr1" "pool1" "BLOC" "cn" "cn/r" "r" 1 4 80)
              (map sample_pool ["a"; "b"; "c"; "d"; "e"])
              (fun p : PoolData => inl (pool_ID p))
              ["a"; "b"; "c"; "d"; "e"]
              eq_refl eq_refl eq_refl eq_refl
              ltac:(repeat constructor)) as [Hrun _].
  exact Hrun.
Defined.

(** C3, as the specification words it, fails: with five pools rendered as
    [a] to [e] the returned markup is [abcde</div>], and no non-empty
    marker stands between the fourth fragment and the fifth. *)
Lemma pools_list_has_no_cutoff_marker :
  outcome (handleElectronCommands (sample_env None None ["a"; "b"; "c"; "d"; "e"] 1 1)
             (mkMessageIn "get-pools-list" "BLOC") (sample_gui None None) (0, []))
    = Ret (Str "abcde</div>", None) /\
  ~ has_cutoff_marker 4 ["a"; "b"; "c"; "d"; "e"] "abcde</div>".
Proof.
  split.
  - reflexivity.
  - intros (marker & trailer & Hne & Heq).
    cbn in Heq.
    injection Heq as Heq.
    destruct marker as [|x marker]; [now apply Hne|].
    cbn in Heq. injection Heq as Hx Heq.
    repeat (destruct marker as [|? marker];
            [cbn in Heq; discriminate Heq | cbn in Heq; try discriminate Heq; injection Heq as ? Heq]).
Qed.

(** ** Apply-Configuration: the pool endpoint *)

(** C4.  An Apply-Configuration run that reaches the endpoint selection
    (the payload decodes, the miner type is found, the backend is created
    and the pool descriptor is fetched) calls the backend's [WriteConfig]
    exactly once, after the events listed, with a pool endpoint chosen by
    the session's hardware profile: the CPU endpoint for 1, the GPU
    endpoint for 2 and the generic endpoint for every other value. *)
Theorem configureMiner_endpoint_by_hardware_profile :
  forall (W : Type) (env : Env W) (command : MessageIn) (g : GUI W)
         (w w1 w2 w3 : W) (c : Config.t) (newConfig : frontendConfig.t)
         (minerType minerPath : string) (m : Miner W) (poolInfo : PoolData),
    json_Unmarshal env (Payload command) = inl newConfig ->
    config g = Some c ->
    let scanPath := filepath_Join env (workingDir g) "miner" in
    let hw := frontendConfig.HardwareType newConfig in
    let minerConfig := miner.mkConfig minerType minerPath hw in
    let session :=
      Config.mk (Config.APIEndpoint c)
                (frontendConfig.CoinType newConfig)
                (frontendConfig.CoinAlgo newConfig)
                (frontendConfig.XmrigAlgo newConfig)
                (frontendConfig.XmrigVariant newConfig)
                hw
                (Config.Mid c)
                (frontendConfig.Address newConfig)
                (frontendConfig.Pool newConfig)
                minerConfig in
    DetermineMinerType env scanPath w = (inl (minerType, minerPath), w1) ->
    CreateMiner env minerConfig w1 = (inl m, w2) ->
    GetPool env (set_miner (Some m) (set_config (Some session) g))
            (frontendConfig.Pool newConfig) w2 = (inl poolInfo, w3) ->
    exists (endpoint : string) (r : option error) (rest : list Effect),
      trace (configureMiner env command g w)
        = [Log Info "Configuring miner";
           Log Debug "Determining miner type";
           DetermineMinerTypeCall scanPath;
           Log Debug "Creating miner";
           CreateMinerCall minerConfig;
           Log Debug "Getting pool information";
           ApiGetPool (frontendConfig.Pool newConfig);
           Log Debug "Writing miner config";
           MinerWriteConfig endpoint
             (frontendConfig.Address newConfig)
             (frontendConfig.CoinAlgo newConfig)
             (frontendConfig.XmrigAlgo newConfig)
             (frontendConfig.XmrigVariant newConfig)
             (miner.mkProcessingConfig (frontendConfig.Threads newConfig)
                                       (frontendConfig.MaxCPU newConfig)) r]
          ++ rest /\
      count_backend_ops rest = 0%nat /\
      option_map Config.HardwareType (config (final_gui (configureMiner env command g w)))
        = Some hw /\
      (hw = 1 -> endpoint = Cpu (pool_MiningPorts poolInfo)) /\
      (hw = 2 -> endpoint = Gpu (pool_MiningPorts poolInfo)) /\
      (hw <> 1 -> hw <> 2 -> endpoint = pool_Config poolInfo).
Proof.
  intros W env command g w w1 w2 w3 c newConfig minerType minerPath m poolInfo
         Hdec Hc scanPath hw minerConfig session Htype Hcreate Hpool.
  assert (Hsel :
    (hw = 1 -> poolAddress_of hw poolInfo = Cpu (pool_MiningPorts poolInfo)) /\
    (hw = 2 -> poolAddress_of hw poolInfo = Gpu (pool_MiningPorts poolInfo)) /\
    (hw <> 1 -> hw <> 2 -> poolAddress_of hw poolInfo = pool_Config poolInfo)).
  { unfold poolAddress_of. repeat split.
    - intros ->. reflexivity.
    - intros ->. reflexivity.
    - intros H1 H2.
      destruct (Z.eqb_spec hw 1) as [E|_]; [contradiction|].
      destruct (Z.eqb_spec hw 2) as [E|_]; [contradiction|]. reflexivity. }
  exists (poolAddress_of hw poolInfo).
  subst scanPath minerConfig session hw. exec_in Hpool.
  unfold configureMiner. exec.
  rewrite Hdec. exec. rewrite Hc. exec.
  rewrite Htype. exec.
  rewrite Hcreate. exec.
  rewrite Hpool. exec.
  destruct (WriteConfig m _ _ _ _ _ _ w3) as [[e|] w4] eqn:Hwrite.
  - exists (Some e). unfold fatal_configure, sendElectronCommand, json_Marshal. exec.
    destruct (json_Marshal_error env _) as [e1|]; exec.
    + eexists. split; [reflexivity|]. split; [reflexivity|]. split; [reflexivity|]. exact Hsel.
    + destruct (bootstrap_SendMessage env _ _ w4) as [r5 w5].
      eexists. split; [reflexivity|]. split; [reflexivity|]. split; [reflexivity|]. exact Hsel.
  - exists None. exec.
    destruct (SaveConfig env _ _ w4) as [[e|] w5].
    + unfold fatal_configure, sendElectronCommand, json_Marshal. exec.
      destruct (json_Marshal_error env _) as [e1|]; exec.
      * eexists. split; [reflexivity|]. split; [reflexivity|]. split; [reflexivity|]. exact Hsel.
      * destruct (bootstrap_SendMessage env _ _ w5) as [r6 w6].
        eexists. split; [reflexivity|]. split; [reflexivity|]. split; [reflexivity|]. exact Hsel.
    + eexists. split; [reflexivity|]. split; [reflexivity|]. split; [reflexivity|]. exact Hsel.
Qed.

Lemma configureMiner_endpoint_by_hardware_profile_witness :
  exists (r : option error) (rest : list Effect),
    trace (configureMiner (sample_env None None [] 1 1)
             (mkMessageIn "save-configuration" "BLOC") fresh_gui (0, []))
      = [Log Info "Configuring miner";
         Log Debug "Determining miner type";
         DetermineMinerTypeCall "/opt/miner";
         Log Debug "Creating miner";
         CreateMinerCall (miner.mkConfig "xmrig" "/opt/miner/xmrig" 1);
         Log Debug "Getting pool information";
         ApiGetPool "pool1";
         Log Debug "Writing miner config";
         MinerWriteConfig "p1:1111" "addr1" "cn" "cn/r" "r"
           (miner.mkProcessingConfig 4 80) r]
        ++ rest.
Proof.
  destruct (configureMiner_endpoint_by_hardware_profile
              World (sample_env None None [] 1 1)
              (mkMessageIn "save-configuration" "BLOC") fresh_gui
              (0, []) (0, []) (0, []) (0, []) sample_config
              (frontendConfig.mk "addr1" "pool1" "BLOC" "cn" "cn/r" "r" 1 4 80)
              "xmrig" "/opt/miner/xmrig" (sample_miner None None) (sample_pool "pool1")
              eq_refl eq_refl eq_refl eq_refl eq_refl)
    as (endpoint & r & rest & Htrace & _ & _ & Hcpu & _ & _).
  exists r, rest.
  rewrite Htrace, (Hcpu eq_refl). reflexivity.
Defined.

(** ** What the dispatcher and the network poller leave alone *)

Section Respects.

Context {W : Type} {B : Type} (proj : GUI W -> B) (P : Effect -> Prop).

Lemma respects_ret : forall (A : Type) (a : A), respects proj P (ret a).
Proof. intros A a g w. split; [reflexivity | constructor]. Qed.

Lemma respects_bind :
  forall (A C : Type) (m : M W A) (k : A -> M W C),
    respects proj P m ->
    (forall a, respects proj P (k a)) ->
    respects proj P (bind m k).
Proof.
  intros A C m k Hm Hk g w.
  destruct (Hm g w) as [Hg Ht].
  unfold bind.
  destruct (m g w) as [[o [g1 w1]] t1].
  unfold final_gui, trace in Hg, Ht. cbn [fst snd] in Hg, Ht.
  destruct o as [a| |].
  - destruct (Hk a g1 w1) as [Hg2 Ht2].
    destruct (k a g1 w1) as [[o2 [g2 w2]] t2].
    unfold final_gui, trace in *. cbn [fst snd] in *.
    split; [congruence | now apply Forall_app].
  - split; assumption.
  - split; assumption.
Qed.

Lemma respects_get_gui : respects proj P get_gui.
Proof. intros g w. split; [reflexivity | constructor]. Qed.

Lemma respects_modify_gui :
  forall f : GUI W -> GUI W,
    (forall g, proj (f g) = proj g) -> respects proj P (modify_gui f).
Proof. intros f Hf g w. split; [apply Hf | constructor]. Qed.

Lemma respects_emit : forall e : Effect, P e -> respects proj P (emit e).
Proof. intros e He g w. split; [reflexivity | repeat constructor; exact He]. Qed.

Lemma respects_exit : forall A : Type, respects proj P (@exit W A).
Proof. intros A g w. split; [reflexivity | constructor]. Qed.

Lemma respects_panic : forall A : Type, respects proj P (@panic W A).
Proof. intros A g w. split; [reflexivity | constructor]. Qed.

Lemma respects_call :
  forall (A : Type) (f : W -> A * W) (ev : A -> list Effect),
    (forall a, Forall P (ev a)) -> respects proj P (call f ev).
Proof.
  intros A f ev Hev g w. unfold call.
  destruct (f w) as [a w1]. split; [reflexivity | apply Hev].
Qed.

End Respects.

Ltac timeless_event :=
  match goal with
  | |- timeless _ => split; [reflexivity | exact I]
  | |- Forall timeless _ => repeat constructor; try reflexivity
  end.

Ltac respects_step :=
  first
    [ apply respects_ret
    | apply respects_get_gui
    | apply respects_exit
    | apply respects_panic
    | apply respects_emit; timeless_event
    | apply respects_call; intros; timeless_event
    | apply respects_modify_gui; intros; reflexivity
    | apply respects_bind; [ | intros ? ]
    | match goal with
      | |- respects _ _ (match ?x with _ => _ end) => destruct x
      end
    | progress cbv zeta ].

Ltac respects_auto :=
  unfold logger, Fatalf, time_Sleep, update_config, deref_config, deref_miner,
         miner_Start, miner_Stop, miner_GetStats, miner_GetProcessingConfig,
         miner_WriteConfig, after_switch, SendMessage_;
  repeat respects_step.

Section Untouched.

Context {W : Type} (env : Env W).

Lemma respects_sendElectronCommand :
  forall (name : string) (data : ElectronMessage),
    respects lastHashrate timeless (sendElectronCommand env name data).
Proof.
  intros name data. unfold sendElectronCommand, json_Marshal.
  destruct (json_Marshal_error env (VMessage data)); respects_auto.
Qed.

Lemma respects_fatal_configure :
  forall (A : Type) (hint e : string),
    respects lastHashrate timeless (@fatal_configure W env A hint e).
Proof.
  intros A hint e. unfold fatal_configure.
  apply respects_bind; [apply respects_sendElectronCommand | intros ?].
  respects_auto.
Qed.

Lemma respects_startMiner : respects lastHashrate timeless (startMiner env).
Proof.
  unfold startMiner.
  respects_auto; try apply respects_sendElectronCommand; respects_auto.
Qed.

Lemma respects_stopMiner : respects lastHashrate timeless (stopMiner env).
Proof.
  unfold stopMiner.
  respects_auto; try apply respects_sendElectronCommand; respects_auto.
Qed.

Lemma respects_updateNetworkStats :
  respects lastHashrate timeless (updateNetworkStats env).
Proof.
  unfold updateNetworkStats. respects_auto.
Qed.

Lemma respects_renderPools :
  forall (poolTemplate : Template) (poolJSONs : list PoolData) (i : nat)
         (poolsList : string),
    respects lastHashrate timeless (@renderPools W poolTemplate i poolJSONs poolsList).
Proof.
  intros poolTemplate poolJSONs.
  induction poolJSONs as [|p ps IH]; intros i poolsList; cbn [renderPools].
  - respects_auto.
  - destruct (poolTemplate p); [apply IH | respects_auto].
Qed.

Lemma respects_configureMiner :
  forall command : MessageIn,
    respects lastHashrate timeless (configureMiner env command).
Proof.
  intros command. unfold configureMiner.
  respects_auto;
    try apply respects_fatal_configure;
    try apply respects_sendElectronCommand;
    respects_auto.
Qed.

Lemma respects_handleElectronCommands :
  forall command : MessageIn,
    respects lastHashrate timeless (handleElectronCommands env command).
Proof.
  intros command. unfold handleElectronCommands, json_Marshal.
  respects_auto;
    try apply respects_sendElectronCommand;
    try apply respects_renderPools;
    try apply respects_configureMiner;
    try apply respects_startMiner;
    try apply respects_stopMiner;
    respects_auto.
Qed.

End Untouched.

(** ** Traces of the mining loop *)

Lemma count_fetches_app :
  forall t1 t2 : list Effect,
    count_fetches (t1 ++ t2) = (count_fetches t1 + count_fetches t2)%nat.
Proof.
  induction t1 as [|e t1 IH]; intros t2; [reflexivity|].
  destruct e; cbn [app count_fetches]; rewrite IH; reflexivity.
Qed.

Lemma observed_app :
  forall t1 t2 : list Effect, observed (t1 ++ t2) = observed t1 ++ observed t2.
Proof.
  induction t1 as [|e t1 IH]; intros t2; [reflexivity|].
  destruct e; try (cbn [app observed]; rewrite IH; reflexivity).
  destruct r; cbn [app observed]; rewrite IH; reflexivity.
Qed.

Lemma last_hashrate_app :
  forall (hs1 hs2 : list float) (h : float),
    last_hashrate h (hs1 ++ hs2) = last_hashrate (last_hashrate h hs1) hs2.
Proof.
  unfold last_hashrate.
  induction hs1 as [|x hs1 IH]; intros hs2 h; [reflexivity|].
  destruct hs1 as [|y hs1].
  - destruct hs2 as [|z hs2]; [reflexivity|].
    cbn [app]. cbn [last]. clear IH.
    revert z. induction hs2 as [|u hs2 IH2]; intros z; [reflexivity|].
    cbn [last] in *. apply IH2.
  - change ((x :: y :: hs1) ++ hs2) with (x :: ((y :: hs1) ++ hs2)).
    change (last (x :: y :: hs1) h) with (last (y :: hs1) h).
    rewrite <- IH. cbn [app last]. reflexivity.
Qed.

Lemma rises_from_zero_app :
  forall (hs1 hs2 : list float) (h : float),
    rises_from_zero h (hs1 ++ hs2)
      = (rises_from_zero h hs1 + rises_from_zero (last_hashrate h hs1) hs2)%nat.
Proof.
  induction hs1 as [|x hs1 IH]; intros hs2 h; [reflexivity|].
  cbn [app rises_from_zero]. rewrite IH.
  replace (last_hashrate h (x :: hs1)) with (last_hashrate x hs1).
  - lia.
  - unfold last_hashrate. destruct hs1 as [|y hs1]; [reflexivity|].
    cbn [last]. clear. revert y. induction hs1 as [|z hs1 IH]; intros y; [reflexivity|].
    cbn [last] in *. apply IH.
Qed.

(** Case analysis on the answers of the collaborators. *)
Ltac case_step :=
  match goal with
  | |- context [match ?x with _ => _ end] =>
      lazymatch x with
      | context [match _ with _ => _ end] => fail
      | _ => destruct x eqn:?
      end
  end.

(** One tick of the mining loop: the last-observed hashrate becomes the
    hashrate just reported, if any; the configuration and the backend stay;
    and a fetch happens exactly on a rise from zero. *)
Lemma miningStatsTick_hashrate :
  forall (W : Type) (env : Env W) (l : Z) (g : GUI W) (w : W),
    lastHashrate (final_gui (miningStatsTick env l g w))
      = last_hashrate (lastHashrate g) (observed (trace (miningStatsTick env l g w))) /\
    config (final_gui (miningStatsTick env l g w)) = config g /\
    miner (final_gui (miningStatsTick env l g w)) = miner g /\
    (config g <> None ->
     count_fetches (trace (miningStatsTick env l g w))
       = rises_from_zero (lastHashrate g)
           (observed (trace (miningStatsTick env l g w)))).
Proof.
  intros W env l g w.
  unfold miningStatsTick, updateNetworkStats, json_Marshal. exec.
  destruct g as [cfg dbg mn wd lh sp]. cbn [config miner lastHashrate].
  repeat (case_step; cbn [fst snd app config miner lastHashrate final_gui trace
                          observed count_fetches]).
  all: unfold final_gui, trace, last_hashrate;
       cbn [fst snd app config miner lastHashrate observed count_fetches
            rises_from_zero last miner.Hashrate].
  all: repeat split; try reflexivity; try congruence.
  all: intros _;
       repeat match goal with
         | H : (_ && _)%bool = _ |- _ => rewrite H
         end; reflexivity.
Qed.

Lemma miningStatsTicks_hashrate :
  forall (W : Type) (env : Env W) (n : nat) (l : Z) (g : GUI W) (w : W),
    config g <> None ->
    count_fetches (trace (miningStatsTicks env n l g w))
      = rises_from_zero (lastHashrate g)
          (observed (trace (miningStatsTicks env n l g w))).
Proof.
  intros W env n. induction n as [|n IH]; intros l g w Hc; [reflexivity|].
  cbn [miningStatsTicks]. unfold bind.
  destruct (miningStatsTick_hashrate W env l g w) as (Hh & Hcfg & _ & Hf).
  specialize (Hf Hc).
  destruct (miningStatsTick env l g w) as [[o [g1 w1]] t1].
  unfold final_gui, trace in Hh, Hcfg, Hf. cbn [fst snd] in Hh, Hcfg, Hf.
  destruct o as [l1| |]; try exact Hf.
  assert (Hc1 : config g1 <> None) by (rewrite Hcfg; exact Hc).
  specialize (IH l1 g1 w1 Hc1).
  destruct (miningStatsTicks env n l1 g1 w1) as [[o2 s2] t2].
  unfold trace in *. cbn [fst snd] in *.
  rewrite count_fetches_app, observed_app, rises_from_zero_app, Hf, IH, <- Hh.
  reflexivity.
Qed.

(** ** The immediate network-stats fetch *)

(** C5, as the code has it.  In a session whose configuration exists, the
    mining loop performs an immediate network-stats fetch at exactly those
    local-stats observations whose hashrate is positive while the
    last-observed hashrate is zero: the fetches of the loop are as many as
    the rises from zero of the observed hashrates.  The first positive
    hashrate after zero triggers one fetch, and so does every later one
    that follows a return to zero. *)
Theorem immediate_fetch_on_each_rise_from_zero :
  forall (W : Type) (env : Env W) (ticks : nat) (g : GUI W) (w : W),
    config g <> None ->
    count_fetches (trace (updateMiningStatsLoop env ticks g w))
      = rises_from_zero (lastHashrate g)
          (observed (trace (updateMiningStatsLoop env ticks g w))).
Proof.
  intros W env ticks g w Hc.
  unfold updateMiningStatsLoop, time_Now_, call, bind.
  destruct (time_Now env w) as [t0 w0].
  pose proof (miningStatsTicks_hashrate W env ticks t0 g w0 Hc) as H.
  destruct (miningStatsTicks env ticks t0 g w0) as [[o s] t].
  unfold trace in *. cbn [fst snd app count_fetches observed] in *.
  exact H.
Qed.

Lemma immediate_fetch_on_each_rise_from_zero_witness :
  count_fetches
    (trace (updateMiningStatsLoop (sample_env None None [] 1 1) 3
              (sample_gui None None) (0, [5; 0; 7]%float)))
  = 2%nat.
Proof.
  rewrite (immediate_fetch_on_each_rise_from_zero
             World (sample_env None None [] 1 1) 3 (sample_gui None None)
             (0, [5; 0; 7]%float)).
  - reflexivity.
  - discriminate.
Defined.

(** C5, as the specification words it, fails: when the backend reports the
    hashrates 5, 0 and 7, the loop fetches the network statistics twice,
    at the first tick and again at the third. *)
Lemma second_immediate_fetch_after_return_to_zero :
  count_fetches
    (trace (updateMiningStatsLoop (sample_env None None [] 1 1) 3
              (sample_gui None None) (0, [5; 0; 7]%float))) = 2%nat /\
  ~ fetches_at_most_once
      (trace (updateMiningStatsLoop (sample_env None None [] 1 1) 3
                (sample_gui None None) (0, [5; 0; 7]%float))).
Proof.
  split; [reflexivity|].
  unfold fetches_at_most_once.
  vm_compute. intros H.
  apply (PeanoNat.Nat.nle_succ_diag_l 1). exact H.
Qed.

(** ** The last-observed hashrate *)

(** C7, as the code has it.  Every local-stats tick whose query succeeds
    overwrites the last-observed hashrate with the hashrate just reported
    (a skipped tick leaves it as it is); nothing else touches it: no
    dispatched command, Apply-Configuration included, and no network-stats
    update changes or resets it. *)
Theorem lastHashrate_tracks_latest_report :
  forall (W : Type) (env : Env W) (g : GUI W) (w : W),
    (forall l : Z,
       lastHashrate (final_gui (miningStatsTick env l g w))
         = last_hashrate (lastHashrate g)
             (observed (trace (miningStatsTick env l g w)))) /\
    (forall command : MessageIn,
       lastHashrate (final_gui (handleElectronCommands env command g w))
         = lastHashrate g) /\
    (forall command : MessageIn,
       lastHashrate (final_gui (configureMiner env command g w)) = lastHashrate g) /\
    lastHashrate (final_gui (updateNetworkStats env g w)) = lastHashrate g.
Proof.
  intros W env g w. repeat split.
  - intros l. apply miningStatsTick_hashrate.
  - intros command. apply (respects_handleElectronCommands env command g w).
  - intros command. apply (respects_configureMiner env command g w).
  - apply (respects_updateNetworkStats env g w).
Qed.

(** C7, as the specification words it, fails: when the backend reports the
    hashrate 5 and then 3, the last-observed hashrate is 5 after the first
    tick and 3 after the second; it was lowered, without any
    reconfiguration. *)
Lemma lastHashrate_lowered_by_second_tick :
  lastHashrate
    (final_gui (miningStatsTicks (sample_env None None [] 1 1) 1 0
                  (sample_gui None None) (0, [5; 3]%float))) = 5%float /\
  lastHashrate
    (final_gui (miningStatsTicks (sample_env None None [] 1 1) 2 0
                  (sample_gui None None) (0, [5; 3]%float))) = 3%float /\
  ~ hashrate_not_lowered
      (final_gui (miningStatsTicks (sample_env None None [] 1 1) 1 0
                    (sample_gui None None) (0, [5; 3]%float)))
      (final_gui (miningStatsTicks (sample_env None None [] 1 1) 2 0
                    (sample_gui None None) (0, [5; 3]%float))).
Proof.
  split; [reflexivity|]. split; [reflexivity|].
  unfold hashrate_not_lowered.
  vm_compute. discriminate.
Qed.

(** ** The graph hint *)

Lemma throttle_after_app :
  forall (t1 t2 : list Effect) (ls ck : Z),
    throttle_after ls ck (t1 ++ t2)
      = throttle_after (fst (throttle_after ls ck t1))
                       (snd (throttle_after ls ck t1)) t2.
Proof.
  induction t1 as [|e t1 IH]; intros t2 ls ck; [reflexivity|].
  destruct e; cbn [app throttle_after];
    try (destruct (graph_hint _)); apply IH.
Qed.

Lemma graph_hint_throttled_app :
  forall (t1 t2 : list Effect) (ls ck : Z),
    graph_hint_throttled ls ck t1 ->
    graph_hint_throttled (fst (throttle_after ls ck t1))
                         (snd (throttle_after ls ck t1)) t2 ->
    graph_hint_throttled ls ck (t1 ++ t2).
Proof.
  induction t1 as [|e t1 IH]; intros t2 ls ck H1 H2; [exact H2|].
  destruct e; cbn [app graph_hint_throttled throttle_after] in *;
    try (destruct (graph_hint _); [destruct H1 as [Hm H1]; split; [exact Hm|] | ]);
    apply IH; assumption.
Qed.

Lemma clock_monotone_app :
  forall (t1 t2 : list Effect) (ls ck : Z),
    clock_monotone ck (t1 ++ t2) ->
    clock_monotone ck t1 /\
    clock_monotone (snd (throttle_after ls ck t1)) t2.
Proof.
  induction t1 as [|e t1 IH]; intros t2 ls ck H; [split; [exact I | exact H]|].
  destruct e; cbn [app clock_monotone throttle_after] in *;
    try (destruct (graph_hint _)); try (apply IH; exact H).
  destruct H as [Hle H]. destruct (IH t2 ls t H) as [Ha Hb].
  split; [split; assumption | exact Hb].
Qed.

Lemma backend_hint_unset_app :
  forall t1 t2 : list Effect,
    backend_hint_unset (t1 ++ t2) ->
    backend_hint_unset t1 /\ backend_hint_unset t2.
Proof.
  induction t1 as [|e t1 IH]; intros t2 H; [split; [exact I | exact H]|].
  destruct e; cbn [app backend_hint_unset] in *; try (apply IH; exact H).
  destruct r as [s|x]; [|apply IH; exact H].
  destruct H as [Hs H]. destruct (IH t2 H) as [Ha Hb].
  split; [split; assumption | exact Hb].
Qed.

Lemma timeless_trace :
  forall (tr : list Effect) (ls ck : Z),
    Forall timeless tr ->
    throttle_after ls ck tr = (ls, ck) /\ graph_hint_throttled ls ck tr.
Proof.
  induction tr as [|e tr IH]; intros ls ck H; [split; [reflexivity | exact I]|].
  inversion H as [|e' tr' [Hhint Hclock] Hrest]; subst.
  destruct e; cbn [throttle_after graph_hint_throttled];
    try rewrite Hhint; try (apply IH; exact Hrest).
  contradiction.
Qed.

(** One tick of the mining loop under the throttle: [ls] is the instant at
    which the hint was last set, [ck] the latest instant read and [l] the
    loop's [lastGraphUpdate], with [ls <= l <= ck]. *)
Lemma miningStatsTick_throttle :
  forall (W : Type) (env : Env W) (l : Z) (g : GUI W) (w : W) (ls ck : Z),
    ls <= l <= ck ->
    clock_monotone ck (trace (miningStatsTick env l g w)) ->
    backend_hint_unset (trace (miningStatsTick env l g w)) ->
    graph_hint_throttled ls ck (trace (miningStatsTick env l g w)) /\
    (forall l1 : Z,
       outcome (miningStatsTick env l g w) = Ret l1 ->
       fst (throttle_after ls ck (trace (miningStatsTick env l g w))) <= l1
       /\ l1 <= snd (throttle_after ls ck (trace (miningStatsTick env l g w)))).
Proof.
  intros W env l g w ls ck Hinv.
  unfold miningStatsTick, updateNetworkStats, json_Marshal. exec.
  destruct g as [cfg dbg mn wd lh sp]. cbn [config miner lastHashrate].
  unfold Minutes_ge_1, Minute.
  repeat (case_step; cbn [fst snd app config miner lastHashrate outcome trace]).
  all: unfold outcome, trace;
       cbn [fst snd app clock_monotone backend_hint_unset graph_hint_throttled
            throttle_after graph_hint miner.set_UpdateGraph miner.set_Address
            miner.UpdateGraph String.eqb Ascii.eqb Bool.eqb andb].
  all: intros Hmono Hunset.
  all: repeat match goal with
         | H : _ /\ _ |- _ => destruct H
         | H : (_ <=? _) = true |- _ => apply Z.leb_le in H
         | H : (_ <=? _) = false |- _ => apply Z.leb_gt in H
         | H : miner.UpdateGraph ?s = false |- _ => rewrite H
         end.
  all: cbn [fst snd]; unfold Minute in *.
  all: try (split; [try exact I | intros l1 Hret; inversion Hret; subst; lia]).
  all: try (split; [lia | exact I]).
Qed.

Lemma run_activity_throttle :
  forall (W : Type) (env : Env W) (a : Activity) (l : Z) (g : GUI W) (w : W)
         (ls ck : Z),
    ls <= l <= ck ->
    clock_monotone ck (trace (run_activity env a l g w)) ->
    backend_hint_unset (trace (run_activity env a l g w)) ->
    graph_hint_throttled ls ck (trace (run_activity env a l g w)) /\
    (forall l1 : Z,
       outcome (run_activity env a l g w) = Ret l1 ->
       fst (throttle_after ls ck (trace (run_activity env a l g w))) <= l1
       /\ l1 <= snd (throttle_after ls ck (trace (run_activity env a l g w)))).
Proof.
  intros W env a l g w ls ck Hinv.
  destruct a as [| |c]; cbn [run_activity].
  - apply miningStatsTick_throttle. exact Hinv.
  - intros _ _. unfold bind.
    destruct (respects_updateNetworkStats env g w) as [_ Htl].
    destruct (updateNetworkStats env g w) as [[o [g1 w1]] t1].
    unfold trace in Htl. cbn [snd] in Htl.
    destruct (timeless_trace t1 ls ck Htl) as [Hst Hth].
    destruct o as [u| |]; unfold outcome, trace, ret; cbn [fst snd];
      try rewrite app_nil_r; rewrite Hst; cbn [fst snd];
      (split; [exact Hth | intros l1 Hret; inversion Hret; subst; exact Hinv]).
  - intros _ _. unfold bind.
    destruct (respects_handleElectronCommands env c g w) as [_ Htl].
    destruct (handleElectronCommands env c g w) as [[o [g1 w1]] t1].
    unfold trace in Htl. cbn [snd] in Htl.
    destruct (timeless_trace t1 ls ck Htl) as [Hst Hth].
    destruct o as [u| |]; unfold outcome, trace, ret; cbn [fst snd];
      try rewrite app_nil_r; rewrite Hst; cbn [fst snd];
      (split; [exact Hth | intros l1 Hret; inversion Hret; subst; exact Hinv]).
Qed.

Lemma run_session_throttle :
  forall (W : Type) (env : Env W) (acts : list Activity) (l : Z) (g : GUI W)
         (w : W) (ls ck : Z),
    ls <= l <= ck ->
    clock_monotone ck (trace (run_session env acts l g w)) ->
    backend_hint_unset (trace (run_session env acts l g w)) ->
    graph_hint_throttled ls ck (trace (run_session env acts l g w)).
Proof.
  intros W env acts. induction acts as [|a acts IH]; intros l g w ls ck Hinv.
  - intros _ _. exact I.
  - cbn [run_session]. unfold bind.
    pose proof (run_activity_throttle W env a l g w ls ck Hinv) as Ha.
    destruct (run_activity env a l g w) as [[o [g1 w1]] t1].
    unfold outcome, trace in Ha. cbn [fst snd] in Ha.
    destruct o as [l1| |].
    + specialize (IH l1 g1 w1).
      destruct (run_session env acts l1 g1 w1) as [[o2 s2] t2].
      unfold trace in *. cbn [fst snd] in *.
      intros Hmono Hunset.
      destruct (clock_monotone_app t1 t2 ls ck Hmono) as [Hm1 Hm2].
      destruct (backend_hint_unset_app t1 t2 Hunset) as [Hu1 Hu2].
      destruct (Ha Hm1 Hu1) as [Hth Hl1].
      apply graph_hint_throttled_app; [exact Hth|].
      apply IH; [apply Hl1; reflexivity | exact Hm2 | exact Hu2].
    + unfold trace. cbn [fst snd]. intros Hmono Hunset. apply Ha; assumption.
    + unfold trace. cbn [fst snd]. intros Hmono Hunset. apply Ha; assumption.
Qed.

Lemma miningStatsTicks_as_session :
  forall (W : Type) (env : Env W) (n : nat) (l : Z) (g : GUI W) (w : W),
    miningStatsTicks env n l g w = run_session env (repeat MiningTick n) l g w.
Proof.
  intros W env n. induction n as [|n IH]; intros l g w; [reflexivity|].
  cbn [miningStatsTicks repeat run_session run_activity].
  unfold bind.
  destruct (miningStatsTick env l g w) as [[[l1| |] [g1 w1]] t1]; try reflexivity.
  rewrite IH. reflexivity.
Qed.

(** Along a session (mining ticks, network ticks and dispatched commands
    in any order) that starts with the loop's [lastGraphUpdate] at [start],
    the graph hint is throttled: commands and network ticks neither read
    the clock nor emit local statistics. *)
Lemma graph_hint_throttled_in_session :
  forall (W : Type) (env : Env W) (acts : list Activity) (start : Z)
         (g : GUI W) (w : W),
    clock_monotone start (trace (run_session env acts start g w)) ->
    backend_hint_unset (trace (run_session env acts start g w)) ->
    graph_hint_throttled start start (trace (run_session env acts start g w)).
Proof.
  intros W env acts start g w Hmono Hunset.
  apply run_session_throttle; [lia | exact Hmono | exact Hunset].
Qed.

(** C6.  Run the mining loop for any number of ticks, its
    [lastGraphUpdate] starting at the instant [start] read when the loop
    begins.  If the clock never runs backwards and the backend reports its
    statistics with the hint unset, then every local-stats emission that
    carries the graph hint comes at least one minute after the instant at
    which the hint was last set (after [start] for the first one); so no
    two emissions less than a minute apart both carry it. *)
Theorem graph_hint_at_most_once_per_minute :
  forall (W : Type) (env : Env W) (ticks : nat) (g : GUI W) (w : W),
    let start := fst (time_Now env w) in
    clock_monotone start (trace (updateMiningStatsLoop env ticks g w)) ->
    backend_hint_unset (trace (updateMiningStatsLoop env ticks g w)) ->
    graph_hint_throttled start start (trace (updateMiningStatsLoop env ticks g w)).
Proof.
  intros W env ticks g w.
  unfold updateMiningStatsLoop, time_Now_, call, bind.
  destruct (time_Now env w) as [t0 w0]. cbn [fst].
  rewrite miningStatsTicks_as_session.
  pose proof (run_session_throttle W env (repeat MiningTick ticks) t0 g w0 t0 t0) as H.
  destruct (run_session env (repeat MiningTick ticks) t0 g w0) as [[o s] t].
  unfold trace in *.
  cbn [fst snd app clock_monotone backend_hint_unset graph_hint_throttled] in *.
  intros [_ Hmono] Hunset. apply H; [lia | exact Hmono | exact Hunset].
Qed.

Lemma graph_hint_at_most_once_per_minute_witness :
  graph_hint_throttled 0 0
    (trace (updateMiningStatsLoop (sample_env None None [] 1 20000000000) 6
              (sample_gui None None) (0, [5; 5; 5; 5; 5; 5]%float))) /\
  count_events "miner_stats"
    (trace (updateMiningStatsLoop (sample_env None None [] 1 20000000000) 6
              (sample_gui None None) (0, [5; 5; 5; 5; 5; 5]%float))) = 6%nat.
Proof.
  split.
  - apply (graph_hint_at_most_once_per_minute
             World (sample_env None None [] 1 20000000000) 6
             (sample_gui None None) (0, [5; 5; 5; 5; 5; 5]%float)).
    + cbn. repeat split; lia.
    + cbn. repeat split.
  - reflexivity.
Defined.

(** ** A fresh session *)

(** C8.  A coordinator constructed by [New] without a persisted
    configuration holds a synthesized session with hardware profile 1
    (CPU) and the identifier just generated by [uuid.New], and has no
    backend; a [get-config-file] dispatch on it returns the serialization
    of the session's user-editable fields, whose hardware profile is 1. *)
Theorem fresh_session_defaults_and_get_config :
  forall (W : Type) (env : Env W)
         (appName apiEndpoint coinType coinAlgo XmrigAlgo XmrigVariant workingDir : string)
         (isDebug : bool) (w w1 : W) (g : GUI W) (t : list Effect),
    New env appName None apiEndpoint coinType coinAlgo XmrigAlgo XmrigVariant
        workingDir isDebug w = (Ret (inl g), w1, t) ->
    let mid := fst (uuid_New env w) in
    let session :=
      Config.mk apiEndpoint coinType coinAlgo XmrigAlgo XmrigVariant 1 mid "" ""
                (miner.mkConfig "" "" 0) in
    let shown := frontendConfig.mk "" "" coinType coinAlgo XmrigAlgo XmrigVariant 1 0 0 in
    config g = Some session /\
    Config.HardwareType session = 1 /\
    In (UuidNew mid) t /\
    miner g = None /\
    frontendConfig.HardwareType shown = 1 /\
    forall (payload : string) (w2 : W),
      json_Marshal_error env (VFrontendConfig shown) = None ->
      handleElectronCommands env (mkMessageIn "get-config-file" payload) g w2
        = (Ret (JsonOf (VFrontendConfig shown), None), (g, w2),
           [Log Debug "Received command from Electron";
            Log Info "Sending config to frontend"]).
Proof.
  intros W env appName apiEndpoint coinType coinAlgo XmrigAlgo XmrigVariant
         workingDir isDebug w w1 g t.
  unfold New, New_setup.
  destruct (String.eqb apiEndpoint ""); [discriminate|].
  exec.
  destruct (uuid_New env w) as [mid w0]. cbn [fst].
  assert (Hdispatch :
    forall g0 : GUI W,
      config g0 = Some (Config.mk apiEndpoint coinType coinAlgo XmrigAlgo XmrigVariant
                                  1 mid "" "" (miner.mkConfig "" "" 0)) ->
      forall (payload : string) (w2 : W),
        json_Marshal_error env
          (VFrontendConfig
             (frontendConfig.mk "" "" coinType coinAlgo XmrigAlgo XmrigVariant 1 0 0)) = None ->
        handleElectronCommands env (mkMessageIn "get-config-file" payload) g0 w2
          = (Ret (JsonOf (VFrontendConfig
                    (frontendConfig.mk "" "" coinType coinAlgo XmrigAlgo XmrigVariant 1 0 0)),
                  None), (g0, w2),
             [Log Debug "Received command from Electron";
              Log Info "Sending config to frontend"])).
  { intros g0 Hc payload w2 Henc.
    unfold handleElectronCommands, json_Marshal. exec.
    rewrite Hc. exec. rewrite Henc. reflexivity. }
  destruct isDebug; exec.
  - destruct (os_OpenFile env _ w0) as [[e|] w3]; exec; intros H; inversion H; subst.
    cbn [config miner]. repeat split; try reflexivity.
    + left. reflexivity.
    + apply Hdispatch. reflexivity.
  - intros H; inversion H; subst.
    cbn [config miner]. repeat split; try reflexivity.
    + left. reflexivity.
    + apply Hdispatch. reflexivity.
Qed.

Lemma fresh_session_defaults_and_get_config_witness :
  exists (g : GUI World),
    fst (fst (New (sample_env None None [] 1 1) "BLOC GUI Miner" None "https://api"
                  "BLOC" "cn" "cn/r" "r" "/opt" false (0, []))) = Ret (inl g) /\
    option_map Config.HardwareType (config g) = Some 1 /\
    outcome (handleElectronCommands (sample_env None None [] 1 1)
               (mkMessageIn "get-config-file" "") g (0, []))
      = Ret (JsonOf (VFrontendConfig
               (frontendConfig.mk "" "" "BLOC" "cn" "cn/r" "r" 1 0 0)), None).
Proof.
  eexists. split; [reflexivity|].
  destruct (fresh_session_defaults_and_get_config
              World (sample_env None None [] 1 1) "BLOC GUI Miner" "https://api"
              "BLOC" "cn" "cn/r" "r" "/opt" false (0, []) (0, []) _ _ eq_refl)
    as (Hc & _ & _ & _ & _ & Hd).
  split.
  - rewrite Hc. reflexivity.
  - rewrite (Hd "" (0, []) eq_refl). reflexivity.
Defined.

(** ** Further properties of the coordinator *)

Lemma unrecognized_command_is_unknown_witness :
  is_recognized "reconfigure" = false /\
  is_unknown_command_error (mkMessageIn "reconfigure" "")
    (handleElectronCommands (sample_env None None [] 1 1)
       (mkMessageIn "reconfigure" "") (sample_gui None None) (0, [])).
Proof.
  split.
  - reflexivity.
  - unfold is_unknown_command_error.
    rewrite (unrecognized_command_is_unknown
               World (sample_env None None [] 1 1) (mkMessageIn "reconfigure" "")
               (sample_gui None None) (0, []) eq_refl).
    reflexivity.
Defined.

Lemma graph_hint_throttled_in_session_witness :
  graph_hint_throttled 0 0
    (trace (run_session (sample_env None None [] 1 40000000000)
              [MiningTick; Command (mkMessageIn "get-config-file" "");
               NetworkTick; MiningTick; MiningTick]
              0 (sample_gui None None) (0, [5; 6; 7]%float))).
Proof.
  apply (graph_hint_throttled_in_session
           World (sample_env None None [] 1 40000000000)
           [MiningTick; Command (mkMessageIn "get-config-file" "");
            NetworkTick; MiningTick; MiningTick]
           0 (sample_gui None None) (0, [5; 6; 7]%float)).
  - cbn. repeat split; lia.
  - cbn. repeat split.
Defined.

(** The Start procedure on a backend whose start operation fails with [e]:
    one [fatal_error] event naming the backend and the error, a wait of 15
    seconds, and the process exits. *)
Lemma start_failure_is_fatal :
  forall (W : Type) (env : Env W) (g : GUI W) (w w1 : W) (m : Miner W) (e : error),
    miner g = Some m ->
    Start m w = (Some e, w1) ->
    (forall msg, json_Marshal_error env (VMessage msg) = None) ->
    let msg :=
      mkElectronMessage
        (cat ["Unable to start '"; GetName m;
              "' miner, please check that you can run the miner from your installation directory.<br/>The error was '";
              e; "'"]) in
    startMiner env g w
      = (Exit,
         (g, snd (bootstrap_SendMessage env "fatal_error" (JsonOf (VMessage msg)) w1)),
         [MinerStart (Some e);
          SendMessage "fatal_error" (JsonOf (VMessage msg));
          Sleep 15;
          Log Fatal (cat ["Error starting '"; GetName m; "': "; e])]).
Proof.
  intros W env g w w1 m e Hm Hstart Henc msg.
  unfold startMiner. exec. rewrite Hm. exec. rewrite Hstart. exec.
  fold msg.
  rewrite (sendElectronCommand_encoded W env "fatal_error" msg g w1 (Henc msg)).
  reflexivity.
Qed.

Lemma start_failure_is_fatal_witness :
  outcome (startMiner (sample_env (Some "no binary") None [] 1 1)
             (sample_gui (Some "no binary") None) (0, [])) = Exit.
Proof.
  rewrite (start_failure_is_fatal
             World (sample_env (Some "no binary") None [] 1 1)
             (sample_gui (Some "no binary") None) (0, []) (0, [])
             (sample_miner (Some "no binary") None) "no binary"
             eq_refl eq_refl (fun _ => eq_refl)).
  reflexivity.
Defined.

(** [New] on a persisted configuration copies the session's hardware
    profile into the backend configuration before it creates the backend,
    and opens on [index.html]. *)
Lemma New_copies_hardware_profile :
  forall (W : Type) (env : Env W)
         (appName apiEndpoint coinType coinAlgo XmrigAlgo XmrigVariant workingDir : string)
         (isDebug : bool) (c : Config.t) (w w1 : W) (g : GUI W) (t : list Effect),
    New env appName (Some c) apiEndpoint coinType coinAlgo XmrigAlgo XmrigVariant
        workingDir isDebug w = (Ret (inl g), w1, t) ->
    let backend :=
      miner.mkConfig (miner.Type_ (Config.Miner c)) (miner.Path (Config.Miner c))
                     (Config.HardwareType c) in
    In (CreateMinerCall backend) t /\
    config g = Some (Config.set_Miner backend c) /\
    miner g <> None /\
    startPage g = "index.html".
Proof.
  intros W env appName apiEndpoint coinType coinAlgo XmrigAlgo XmrigVariant
         workingDir isDebug c w w1 g t.
  unfold New, New_setup.
  destruct (String.eqb apiEndpoint ""); [discriminate|].
  exec.
  destruct (CreateMiner env _ w) as [[m|e] w0]; exec; [|discriminate].
  destruct isDebug; exec.
  - destruct (os_OpenFile env _ w0) as [[e|] w2]; exec; intros H; inversion H; subst.
    cbn [config miner startPage]. repeat split; try reflexivity.
    + left. reflexivity.
    + discriminate.
  - intros H; inversion H; subst.
    cbn [config miner startPage]. repeat split; try reflexivity.
    + left. reflexivity.
    + discriminate.
Qed.

Lemma New_copies_hardware_profile_witness :
  exists g : GUI World,
    fst (fst (New (sample_env None None [] 1 1) "BLOC GUI Miner"
                  (Some (Config.mk "https://api" "BLOC" "cn" "cn/r" "r" 2 "4b1f-0001"
                                   "addr1" "pool1"
                                   (miner.mkConfig "xmrig" "/opt/miner/xmrig" 1)))
                  "https://api" "BLOC" "cn" "cn/r" "r" "/opt" false (0, [])))
      = Ret (inl g) /\
    option_map (fun s => miner.HardwareType (Config.Miner s)) (config g) = Some 2.
Proof.
  eexists. split; [reflexivity|].
  destruct (New_copies_hardware_profile
              World (sample_env None None [] 1 1) "BLOC GUI Miner" "https://api"
              "BLOC" "cn" "cn/r" "r" "/opt" false
              (Config.mk "https://api" "BLOC" "cn" "cn/r" "r" 2 "4b1f-0001"
                         "addr1" "pool1" (miner.mkConfig "xmrig" "/opt/miner/xmrig" 1))
              (0, []) (0, []) _ _ eq_refl)
    as (_ & Hc & _ & _).
  rewrite Hc. reflexivity.
Defined.

(** [get-pools-list] is idempotent: dispatched again on the coordinator it
    left, with the same payload and the same answers of the pool API, it
    returns the same markup and leaves the coordinator as it is. *)
Lemma get_pools_list_idempotent :
  forall (W : Type) (env : Env W) (g : GUI W) (w w1 w2 w3 w4 : W) (c : Config.t)
         (payload : string) (newConfig : frontendConfig.t)
         (poolJSONs : list PoolData) (poolTemplate : Template)
         (fragments : list string),
    json_Unmarshal env payload = inl newConfig ->
    config g = Some c ->
    let g1 := set_config
                (Some (Config.set_CoinType (frontendConfig.CoinType newConfig) c)) g in
    GetPoolList env g1 w = (inl poolJSONs, w1) ->
    GetPoolTemplate env g1 w1 = (inl poolTemplate, w2) ->
    GetPoolList env g1 w2 = (inl poolJSONs, w3) ->
    GetPoolTemplate env g1 w3 = (inl poolTemplate, w4) ->
    Forall2 (fun p f => poolTemplate p = inl f) poolJSONs fragments ->
    final_gui (handleElectronCommands env (mkMessageIn "get-pools-list" payload) g w) = g1 /\
    outcome (handleElectronCommands env (mkMessageIn "get-pools-list" payload) g1 w2)
      = outcome (handleElectronCommands env (mkMessageIn "get-pools-list" payload) g w) /\
    final_gui (handleElectronCommands env (mkMessageIn "get-pools-list" payload) g1 w2) = g1.
Proof.
  intros W env g w w1 w2 w3 w4 c payload newConfig poolJSONs poolTemplate fragments
         Hdec Hc g1 Hl1 Ht1 Hl2 Ht2 Hall.
  pose proof (get_pools_list_run W env g w w1 w2 c payload newConfig poolJSONs
                poolTemplate fragments Hdec Hc Hl1 Ht1 Hall) as Hfirst.
  assert (Hsame :
    set_config
      (Some (Config.set_CoinType (frontendConfig.CoinType newConfig)
               (Config.set_CoinType (frontendConfig.CoinType newConfig) c))) g1 = g1).
  { subst g1. destruct g; reflexivity. }
  assert (Hc1 : config g1
                = Some (Config.set_CoinType (frontendConfig.CoinType newConfig) c))
    by reflexivity.
  pose proof (get_pools_list_run W env g1 w2 w3 w4 _ payload newConfig poolJSONs
                poolTemplate fragments Hdec Hc1) as Hsecond.
  cbv zeta in Hsecond. rewrite Hsame in Hsecond.
  specialize (Hsecond Hl2 Ht2 Hall).
  fold g1 in Hfirst.
  rewrite Hfirst, Hsecond. repeat split.
Qed.

Lemma get_pools_list_idempotent_witness :
  outcome (handleElectronCommands (sample_env None None ["a"; "b"] 1 1)
             (mkMessageIn "get-pools-list" "BLOC") (sample_gui None None) (0, []))
    = Ret (Str "ab</div>", None) /\
  outcome (handleElectronCommands (sample_env None None ["a"; "b"] 1 1)
             (mkMessageIn "get-pools-list" "BLOC")
             (final_gui (handleElectronCommands (sample_env None None ["a"; "b"] 1 1)
                           (mkMessageIn "get-pools-list" "BLOC")
                           (sample_gui None None) (0, [])))
             (0, []))
    = Ret (Str "ab</div>", None).
Proof.
  destruct (get_pools_list_idempotent
              World (sample_env None None ["a"; "b"] 1 1) (sample_gui None None)
              (0, []) (0, []) (0, []) (0, []) (0, []) sample_config "BLOC"
              (frontendConfig.mk "addr1" "pool1" "BLOC" "cn" "cn/r" "r" 1 4 80)
              (map sample_pool ["a"; "b"]) (fun p : PoolData => inl (pool_ID p))
              ["a"; "b"] eq_refl eq_refl eq_refl eq_refl eq_refl eq_refl
              ltac:(repeat constructor)) as (Hg & Hout & _).
  split; [reflexivity|].
  rewrite Hg, Hout. reflexivity.
Defined.

(** ** What each command may change and ask for *)

Ltac on_request_event :=
  cbv beta; unfold on_request; repeat split; intros Hflag;
  first [discriminate Hflag | reflexivity].

Ltac frame_step :=
  first
    [ apply respects_ret
    | apply respects_get_gui
    | apply respects_exit
    | apply respects_panic
    | apply respects_emit; first [reflexivity | exact I | on_request_event]
    | apply respects_call; intros;
      repeat constructor; first [reflexivity | exact I | on_request_event]
    | apply respects_modify_gui; intros; reflexivity
    | apply respects_bind; [ | intros ? ]
    | match goal with
      | |- respects _ _ (match ?x with _ => _ end) => destruct x
      end
    | progress cbv zeta ].

Ltac frame_auto :=
  unfold logger, Fatalf, time_Sleep, update_config, deref_config, deref_miner,
         miner_Start, miner_Stop, miner_GetStats, miner_GetProcessingConfig,
         miner_WriteConfig, after_switch, SendMessage_, time_Since, time_Now_,
         fatal_configure, sendElectronCommand, json_Marshal;
  repeat frame_step.

Lemma frame_renderPools :
  forall (W B : Type) (proj : GUI W -> B) (P : Effect -> Prop)
         (poolTemplate : Template) (poolJSONs : list PoolData) (i : nat)
         (poolsList : string),
    (forall msg, P (Log Fatal msg)) ->
    respects proj P (@renderPools W poolTemplate i poolJSONs poolsList).
Proof.
  intros W B proj P poolTemplate poolJSONs.
  induction poolJSONs as [|p ps IH]; intros i poolsList HP; cbn [renderPools].
  - apply respects_ret.
  - destruct (poolTemplate p); [apply IH; exact HP|].
    unfold Fatalf, logger.
    apply respects_bind; [apply respects_emit; apply HP | intros ?; apply respects_exit].
Qed.

Lemma frame_configureMiner :
  forall (W : Type) (env : Env W) (command : MessageIn),
    respects (untouched_by "save-configuration") (on_request "save-configuration")
             (configureMiner env command).
Proof.
  intros W env command. unfold configureMiner. frame_auto.
Qed.

Lemma frame_startMiner :
  forall (W : Type) (env : Env W),
    respects (untouched_by "start-miner") (on_request "start-miner") (startMiner env).
Proof.
  intros W env. unfold startMiner. frame_auto.
Qed.

Lemma frame_stopMiner :
  forall (W : Type) (env : Env W),
    respects (untouched_by "stop-miner") (on_request "stop-miner") (stopMiner env).
Proof.
  intros W env. unfold stopMiner. frame_auto.
Qed.

(** Case analysis on the name of a command, along the dispatcher's
    [switch]. *)
Ltac switch_on_name :=
  repeat match goal with
    | |- context [if String.eqb ?n ?lit then _ else _] =>
        let E := fresh "E" in
        destruct (String.eqb n lit) eqn:E;
        [apply String.eqb_eq in E; subst n | ]
    end.

Lemma frame_handleElectronCommands :
  forall (W : Type) (env : Env W) (command : MessageIn),
    respects (untouched_by (Name command)) (on_request (Name command))
             (handleElectronCommands env command).
Proof.
  intros W env [name payload]. unfold handleElectronCommands. cbn [Name Payload].
  apply respects_bind; [frame_auto | intros _].
  switch_on_name.
  all: frame_auto;
       try (apply frame_renderPools; intros; on_request_event);
       try apply frame_configureMiner;
       try apply frame_startMiner;
       try apply frame_stopMiner;
       frame_auto.
Qed.

(** Every command leaves alone what it has no business with: only
    [save-configuration] replaces the backend, only [save-configuration]
    and [get-pools-list] write the session, and no command changes the
    debug flag, the working directory, the start page or the
    last-observed hashrate. *)
Theorem commands_write_only_their_part :
  forall (W : Type) (env : Env W) (command : MessageIn) (g : GUI W) (w : W),
    let after := final_gui (handleElectronCommands env command g w) in
    (Name command <> "save-configuration" -> miner after = miner g) /\
    (Name command <> "save-configuration" -> Name command <> "get-pools-list" ->
     config after = config g) /\
    inDebugMode after = inDebugMode g /\
    workingDir after = workingDir g /\
    startPage after = startPage g /\
    lastHashrate after = lastHashrate g.
Proof.
  intros W env command g w after.
  destruct (frame_handleElectronCommands W env command g w) as [Hframe _].
  fold after in Hframe. unfold untouched_by, fixed_part in Hframe.
  injection Hframe as Hc Hm Hd Hw Hp Hh.
  repeat split; try assumption.
  - intros Hsave. apply String.eqb_neq in Hsave. rewrite Hsave in Hm.
    injection Hm as Hm. exact Hm.
  - intros Hsave Hpools.
    apply String.eqb_neq in Hsave. apply String.eqb_neq in Hpools.
    rewrite Hsave, Hpools in Hc. injection Hc as Hc. exact Hc.
Qed.

Lemma commands_write_only_their_part_witness :
  miner (final_gui (handleElectronCommands (sample_env None None ["a"] 1 1)
                      (mkMessageIn "get-pools-list" "XMR") (sample_gui None None)
                      (0, [])))
    = miner (sample_gui None None) /\
  option_map Config.CoinType
    (config (final_gui (handleElectronCommands (sample_env None None ["a"] 1 1)
                          (mkMessageIn "get-pools-list" "XMR") (sample_gui None None)
                          (0, []))))
    = Some "XMR".
Proof.
  destruct (commands_write_only_their_part
              World (sample_env None None ["a"] 1 1)
              (mkMessageIn "get-pools-list" "XMR") (sample_gui None None) (0, []))
    as [Hm _].
  split.
  - apply Hm. discriminate.
  - reflexivity.
Defined.

(** The backend is started only by [start-miner], stopped only by
    [stop-miner], and created, configured or persisted only by
    [save-configuration]: in particular Apply-Configuration never stops
    the backend instance it replaces. *)
Theorem backend_touched_only_on_request :
  forall (W : Type) (env : Env W) (command : MessageIn) (g : GUI W) (w : W)
         (e : Effect),
    In e (trace (handleElectronCommands env command g w)) ->
    (is_start e = true -> Name command = "start-miner") /\
    (is_stop e = true -> Name command = "stop-miner") /\
    (is_reconfiguration e = true -> Name command = "save-configuration").
Proof.
  intros W env command g w e Hin.
  destruct (frame_handleElectronCommands W env command g w) as [_ Hall].
  rewrite Forall_forall in Hall. exact (Hall e Hin).
Qed.

Lemma backend_touched_only_on_request_witness :
  In (MinerWriteConfig "p1:1111" "addr1" "cn" "cn/r" "r"
        (miner.mkProcessingConfig 4 80) None)
     (trace (handleElectronCommands (sample_env None None [] 1 1)
               (mkMessageIn "save-configuration" "BLOC") (sample_gui None None)
               (0, []))) /\
  (true = true -> "save-configuration" = "save-configuration").
Proof.
  assert (Hin :
    In (MinerWriteConfig "p1:1111" "addr1" "cn" "cn/r" "r"
          (miner.mkProcessingConfig 4 80) None)
       (trace (handleElectronCommands (sample_env None None [] 1 1)
                 (mkMessageIn "save-configuration" "BLOC") (sample_gui None None)
                 (0, [])))).
  { cbn. do 10 right. left. reflexivity. }
  split; [exact Hin|].
  destruct (backend_touched_only_on_request
              World (sample_env None None [] 1 1)
              (mkMessageIn "save-configuration" "BLOC") (sample_gui None None)
              (0, []) _ Hin) as (_ & _ & Hre).
  exact Hre.
Defined.

(** ** Apply-Configuration, end to end *)

(** Every way [configureMiner] can go, on a coordinator that has a session. *)
Lemma configureMiner_facts :
  forall (W : Type) (env : Env W) (command : MessageIn) (g : GUI W) (w : W)
         (c : Config.t),
    config g = Some c ->
    outcome (configureMiner env command g w) <> Panic /\
    (outcome (configureMiner env command g w) = Exit ->
     ends_with_grace_exit (trace (configureMiner env command g w)) = true) /\
    (saved_configs (trace (configureMiner env command g w)) = [] \/
     write_succeeded (trace (configureMiner env command g w)) = true) /\
    (forall u : unit,
       outcome (configureMiner env command g w) = Ret u ->
       exists (n : frontendConfig.t) (found : string * string) (m : Miner W),
         json_Unmarshal env (Payload command) = inl n /\
         config (final_gui (configureMiner env command g w))
           = Some (applied_session c n (fst found) (snd found)) /\
         miner (final_gui (configureMiner env command g w)) = Some m /\
         saved_configs (trace (configureMiner env command g w))
           = [applied_session c n (fst found) (snd found)] /\
         created_backends (trace (configureMiner env command g w))
           = [Config.Miner (applied_session c n (fst found) (snd found))] /\
         count_backend_ops (trace (configureMiner env command g w)) = 1%nat).
Proof.
  intros W env command g w c Hc.
  destruct g as [cfg dbg mn wd lh sp]. cbn [config] in Hc. subst cfg.
  unfold configureMiner, fatal_configure, sendElectronCommand, json_Marshal,
         applied_session.
  exec.
  repeat (case_step; exec).
  all: unfold outcome, final_gui, trace, ends_with_grace_exit;
       cbn [fst snd app rev saved_configs write_succeeded created_backends
            count_backend_ops config miner].
  all: split; [discriminate|].
  all: split; [first [reflexivity | intros Hx; discriminate Hx]|].
  all: split; [first [left; reflexivity | right; reflexivity]|].
  all: intros u Hret; try discriminate Hret.
  all: do 3 eexists; repeat split; reflexivity.
Qed.



(** Apply-Configuration never panics on a coordinator that has a session;
    every failure of one of its steps ends the process, after the fatal
    log line that follows the 15-second grace period; and the session is
    handed to the configuration store only once the backend has accepted
    its configuration, so a failure of an earlier step persists nothing. *)
Theorem configureMiner_failures_exit_before_persisting :
  forall (W : Type) (env : Env W) (command : MessageIn) (g : GUI W) (w : W)
         (c : Config.t),
    config g = Some c ->
    outcome (configureMiner env command g w) <> Panic /\
    (outcome (configureMiner env command g w) = Exit ->
     ends_with_grace_exit (trace (configureMiner env command g w)) = true) /\
    (write_succeeded (trace (configureMiner env command g w)) = false ->
     saved_configs (trace (configureMiner env command g w)) = []).
Proof.
  intros W env command g w c Hc.
  destruct (configureMiner_facts W env command g w c Hc) as (Hp & Hexit & Hsave & _).
  repeat split; try assumption.
  intros Hw. destruct Hsave as [Hs | Hs]; [exact Hs | congruence].
Qed.

Lemma configureMiner_failures_exit_before_persisting_witness :
  outcome (configureMiner (sample_env None None [] 2 1)
             (mkMessageIn "save-configuration" "BLOC") fresh_gui (0, [])) <> Panic.
Proof.
  apply (configureMiner_failures_exit_before_persisting
           World (sample_env None None [] 2 1)
           (mkMessageIn "save-configuration" "BLOC") fresh_gui (0, [])
           sample_config eq_refl).
Defined.

(** A payload that does not decode changes nothing: the coordinator is as
    it was, no collaborator was called (no detection, no backend, no
    store), and the process exits after the grace period. *)
Theorem configureMiner_rejects_undecodable_payload :
  forall (W : Type) (env : Env W) (command : MessageIn) (g : GUI W) (w : W)
         (e : error),
    json_Unmarshal env (Payload command) = inr e ->
    outcome (configureMiner env command g w) = Exit /\
    final_gui (configureMiner env command g w) = g /\
    created_backends (trace (configureMiner env command g w)) = [] /\
    saved_configs (trace (configureMiner env command g w)) = [] /\
    count_backend_ops (trace (configureMiner env command g w)) = 0%nat /\
    ends_with_grace_exit (trace (configureMiner env command g w)) = true.
Proof.
  intros W env command g w e Hdec.
  unfold configureMiner, fatal_configure, sendElectronCommand, json_Marshal.
  exec. rewrite Hdec. exec.
  destruct (json_Marshal_error env _) as [e1|]; exec.
  - repeat split.
  - destruct (bootstrap_SendMessage env _ _ w) as [r w1]. repeat split.
Qed.

Lemma configureMiner_rejects_undecodable_payload_witness :
  final_gui
    (configureMiner
       (with_json_Unmarshal (fun _ => inr "unexpected end of JSON input")
                            (sample_env None None [] 1 1))
       (mkMessageIn "save-configuration" "{") (sample_gui None None) (0, []))
  = sample_gui None None.
Proof.
  apply (configureMiner_rejects_undecodable_payload
           World
           (with_json_Unmarshal (fun _ => inr "unexpected end of JSON input")
                                (sample_env None None [] 1 1))
           (mkMessageIn "save-configuration" "{")
           (sample_gui None None) (0, []) "unexpected end of JSON input" eq_refl).
Defined.

(** ** How a dispatch can end *)

Section Ends.

Context {W : Type} (I : GUI W -> Prop) (CanPanic : Prop).

Lemma ends_ret :
  forall (A : Type) (Q : A -> Prop) (a : A), Q a -> ends I CanPanic Q (ret a).
Proof.
  intros A Q a Ha g w Hg. split; [discriminate|].
  intros b Hret. inversion Hret; subst. split; assumption.
Qed.

Lemma ends_exit :
  forall (A : Type) (Q : A -> Prop), ends I CanPanic Q (@exit W A).
Proof. intros A Q g w Hg. split; [discriminate | intros b Hret; discriminate Hret]. Qed.

Lemma ends_panic :
  forall (A : Type) (Q : A -> Prop), CanPanic -> ends I CanPanic Q (@panic W A).
Proof.
  intros A Q Hc g w Hg. split; [intros _; exact Hc | intros b Hret; discriminate Hret].
Qed.

Lemma ends_emit : forall e : Effect, ends I CanPanic (fun _ => True) (emit e).
Proof.
  intros e g w Hg. split; [discriminate|].
  intros b Hret. split; [exact Hg | exact Logic.I].
Qed.

Lemma ends_call :
  forall (A : Type) (f : W -> A * W) (ev : A -> list Effect),
    ends I CanPanic (fun _ => True) (call f ev).
Proof.
  intros A f ev g w Hg. unfold call. destruct (f w) as [a w1].
  split; [discriminate|]. intros b Hret. split; [exact Hg | exact Logic.I].
Qed.

Lemma ends_modify_gui :
  forall f : GUI W -> GUI W,
    (forall g, I g -> I (f g)) -> ends I CanPanic (fun _ => True) (modify_gui f).
Proof.
  intros f Hf g w Hg. split; [discriminate|].
  intros b Hret. split; [apply Hf; exact Hg | exact Logic.I].
Qed.

Lemma ends_bind :
  forall (A B : Type) (Q1 : A -> Prop) (Q : B -> Prop) (m : M W A) (k : A -> M W B),
    ends I CanPanic Q1 m ->
    (forall a, Q1 a -> ends I CanPanic Q (k a)) ->
    ends I CanPanic Q (bind m k).
Proof.
  intros A B Q1 Q m k Hm Hk g w Hg.
  destruct (Hm g w Hg) as [Hp Hr].
  unfold bind.
  destruct (m g w) as [[o [g1 w1]] t1].
  unfold outcome, final_gui in Hp, Hr. cbn [fst snd] in Hp, Hr.
  destruct o as [a| |].
  - destruct (Hr a eq_refl) as [Hg1 Ha].
    destruct (Hk a Ha g1 w1 Hg1) as [Hp2 Hr2].
    destruct (k a g1 w1) as [[o2 [g2 w2]] t2].
    unfold outcome, final_gui in *. cbn [fst snd] in *.
    split; assumption.
  - split; [discriminate | intros b Hret; discriminate Hret].
  - split; [intros _; apply Hp; reflexivity | intros b Hret; discriminate Hret].
Qed.

Lemma ends_bind_any :
  forall (A B : Type) (Q : B -> Prop) (m : M W A) (k : A -> M W B),
    ends I CanPanic (fun _ => True) m ->
    (forall a, ends I CanPanic Q (k a)) ->
    ends I CanPanic Q (bind m k).
Proof.
  intros A B Q m k Hm Hk.
  apply (ends_bind A B (fun _ => True) Q m k Hm). intros a _. apply Hk.
Qed.

Lemma ends_bind_gui :
  forall (B : Type) (Q : B -> Prop) (k : GUI W -> M W B),
    (forall g0, I g0 -> ends I CanPanic Q (k g0)) ->
    ends I CanPanic Q (bind get_gui k).
Proof.
  intros B Q k Hk.
  apply (ends_bind (GUI W) B I Q get_gui k); [|exact Hk].
  intros g w Hg. split; [discriminate|].
  intros b Hret. inversion Hret; subst. split; exact Hg.
Qed.

Lemma ends_weaken :
  forall (A : Type) (Q : A -> Prop) (m : M W A),
    ends I CanPanic Q m -> ends I CanPanic (fun _ => True) m.
Proof.
  intros A Q m Hm g w Hg. destruct (Hm g w Hg) as [Hp Hr].
  split; [exact Hp|]. intros a Hret. split; [apply (Hr a Hret) | exact Logic.I].
Qed.

End Ends.

Lemma ends_configureMiner :
  forall (W : Type) (env : Env W) (C : Prop) (command : MessageIn),
    ends (fun g => config g <> None) C (fun _ => True) (configureMiner env command).
Proof.
  intros W env C command g w Hg.
  destruct (config g) as [c|] eqn:Hc; [|congruence].
  destruct (configureMiner_facts W env command g w c Hc) as (Hp & _ & _ & Hok).
  split; [intros Hpanic; contradiction|].
  intros u Hret. destruct u.
  destruct (Hok tt Hret) as (n & found & m & _ & Hcfg & _).
  split; [rewrite Hcfg; discriminate | exact Logic.I].
Qed.

Ltac ends_side :=
  first
    [ exact Logic.I
    | reflexivity
    | left; reflexivity
    | right; split; [reflexivity | first [left; reflexivity | right; left; reflexivity]]
    | congruence
    | (cbn; discriminate)
    | (exfalso; congruence) ].

Ltac ends_step :=
  first
    [ match goal with
      | |- ends _ _ _ (bind (configureMiner _ _) _) =>
          apply ends_bind_any; [apply ends_configureMiner | intros ?]
      end
    | apply ends_ret; ends_side
    | apply ends_exit
    | apply ends_panic; ends_side
    | apply ends_emit
    | apply ends_call
    | apply ends_modify_gui; intros; ends_side
    | apply ends_bind_gui; intros ? ?
    | apply ends_bind_any; [ | intros ? ]
    | match goal with
      | |- ends _ _ _ (match ?x with _ => _ end) => destruct x eqn:?
      end
    | progress cbv zeta ].

Ltac ends_auto :=
  unfold logger, Fatalf, time_Sleep, update_config, deref_config, deref_miner,
         miner_Start, miner_Stop, miner_GetStats, miner_GetProcessingConfig,
         miner_WriteConfig, after_switch, SendMessage_, time_Since, time_Now_,
         fatal_configure, sendElectronCommand, json_Marshal;
  repeat ends_step.

Lemma ends_renderPools :
  forall (W : Type) (I : GUI W -> Prop) (C : Prop)
         (poolTemplate : Template) (poolJSONs : list PoolData) (i : nat)
         (poolsList : string),
    ends I C (fun _ => True) (@renderPools W poolTemplate i poolJSONs poolsList).
Proof.
  intros W I C poolTemplate poolJSONs.
  induction poolJSONs as [|p ps IH]; intros i poolsList; cbn [renderPools].
  - ends_auto.
  - destruct (poolTemplate p); [apply IH | ends_auto].
Qed.

Lemma ends_stopMiner :
  forall (W : Type) (env : Env W) (I : GUI W -> Prop) (C : Prop),
    ends I C (fun _ => True) (stopMiner env).
Proof. intros W env I C. unfold stopMiner. ends_auto. Qed.

Lemma ends_startMiner :
  forall (W : Type) (env : Env W) (I : GUI W -> Prop) (C : Prop),
    C -> ends I C (fun _ => True) (startMiner env).
Proof. intros W env I C HC. unfold startMiner. ends_auto. Qed.

(** On a coordinator that has a session, a dispatch panics only for
    [start-miner]; and what it returns is a reply without error or the
    unknown-command error. *)
Lemma ends_handleElectronCommands :
  forall (W : Type) (env : Env W) (command : MessageIn),
    ends (fun g => config g <> None) (Name command = "start-miner")
         (reply_ok (Name command)) (handleElectronCommands env command).
Proof.
  intros W env [name payload]. unfold handleElectronCommands. cbn [Name Payload].
  apply ends_bind_any; [ends_auto | intros _].
  switch_on_name.
  all: ends_auto;
       try apply ends_renderPools;
       try apply ends_stopMiner;
       try (apply ends_startMiner; reflexivity);
       ends_auto.
  apply ends_ret. cbn [Name].
  right. split; [reflexivity|]. right. right.
  unfold is_recognized, recognized. cbn [existsb].
  repeat match goal with
         | H : String.eqb _ _ = false |- _ => rewrite H; clear H
         end.
  reflexivity.
Qed.

Lemma returns_configureMiner :
  forall (W : Type) (env : Env W) (command : MessageIn),
    ends (fun _ : GUI W => True) True (fun _ => True) (configureMiner env command).
Proof.
  intros W env command. unfold configureMiner. ends_auto.
Qed.

Lemma returns_handleElectronCommands :
  forall (W : Type) (env : Env W) (command : MessageIn),
    ends (fun _ : GUI W => True) True (reply_ok (Name command))
         (handleElectronCommands env command).
Proof.
  intros W env [name payload]. unfold handleElectronCommands. cbn [Name Payload].
  apply ends_bind_any; [ends_auto | intros _].
  switch_on_name.
  all: try (apply ends_bind_any; [ends_auto | intros ?];
            apply ends_bind_any; [apply returns_configureMiner | intros ?]).
  all: ends_auto;
       try apply ends_renderPools;
       try apply ends_stopMiner;
       try (apply ends_startMiner; exact Logic.I);
       ends_auto.
  apply ends_ret. cbn [Name].
  right. split; [reflexivity|]. right. right.
  unfold is_recognized, recognized. cbn [existsb].
  repeat match goal with
         | H : String.eqb _ _ = false |- _ => rewrite H; clear H
         end.
  reflexivity.
Qed.

(** Whatever the command and the state, the only error the dispatcher
    ever returns is the unknown-command error, with a nil reply; and the
    eight commands whose case returns ([get-username] to
    [get-config-file]) never return an error at all: their failures are
    either absorbed into an empty reply or end the process. *)
Theorem dispatcher_returns_no_error_but_unknown_command :
  forall (W : Type) (env : Env W) (command : MessageIn) (g : GUI W) (w : W)
         (a : any * option error),
    outcome (handleElectronCommands env command g w) = Ret a ->
    (snd a = None \/
     a = (Nil, Some (cat ["'"; Name command; "' is an unknown command"]))) /\
    (is_recognized (Name command) = true ->
     Name command <> "start-miner" ->
     Name command <> "stop-miner" ->
     snd a = None).
Proof.
  intros W env command g w a Hret.
  destruct (returns_handleElectronCommands W env command g w Logic.I) as [_ Hr].
  destruct (Hr a Hret) as [_ [Hnone | [Hunk Hname]]].
  - split; [left; exact Hnone | intros _ _ _; exact Hnone].
  - split; [right; exact Hunk|].
    intros Hrec Hstart Hstop.
    destruct Hname as [Hn | [Hn | Hn]]; [contradiction | contradiction | congruence].
Qed.

Lemma dispatcher_returns_no_error_but_unknown_command_witness :
  outcome (handleElectronCommands (sample_env None None [] 1 1)
             (mkMessageIn "get-miner-path" "") (sample_gui None None) (0, []))
    = Ret (Str "/opt/miner", None) /\
  snd (Str "/opt/miner", @None error) = None.
Proof.
  split; [reflexivity|].
  destruct (dispatcher_returns_no_error_but_unknown_command
              World (sample_env None None [] 1 1)
              (mkMessageIn "get-miner-path" "") (sample_gui None None) (0, [])
              (Str "/opt/miner", None) eq_refl) as [_ Hnone].
  apply Hnone; [reflexivity | discriminate | discriminate].
Defined.

Lemma startMiner_with_backend_does_not_panic :
  forall (W : Type) (env : Env W) (g : GUI W) (w : W) (m : Miner W),
    miner g = Some m ->
    outcome (startMiner env g w) <> Panic.
Proof.
  intros W env g w m Hm.
  unfold startMiner, sendElectronCommand, json_Marshal. exec. rewrite Hm. exec.
  repeat (case_step; exec).
  all: discriminate.
Qed.

(** On a coordinator that has a session (as every coordinator built by
    [New] has), the only dispatch that can panic is [start-miner] on a
    coordinator without backend. *)
Theorem dispatch_panics_only_for_start_without_backend :
  forall (W : Type) (env : Env W) (command : MessageIn) (g : GUI W) (w : W),
    config g <> None ->
    outcome (handleElectronCommands env command g w) = Panic ->
    Name command = "start-miner" /\ miner g = None.
Proof.
  intros W env command g w Hc Hpanic.
  destruct (ends_handleElectronCommands W env command g w Hc) as [Hp _].
  pose proof (Hp Hpanic) as Hname.
  split; [exact Hname|].
  destruct (miner g) as [m|] eqn:Hm; [exfalso | reflexivity].
  destruct command as [name payload]. cbn [Name] in Hname. subst name.
  pose proof (startMiner_with_backend_does_not_panic W env g w m Hm) as Hs.
  revert Hpanic. unfold handleElectronCommands. exec.
  destruct (startMiner env g w) as [[[u| |] [g1 w1]] t1]; exec;
    unfold outcome in *; cbn [fst] in *; try discriminate.
  intros _. apply Hs. reflexivity.
Qed.

Lemma dispatch_panics_only_for_start_without_backend_witness :
  outcome (handleElectronCommands (sample_env None None [] 1 1)
             (mkMessageIn "start-miner" "") fresh_gui (0, [])) = Panic /\
  miner fresh_gui = None.
Proof.
  split; [reflexivity|].
  apply (dispatch_panics_only_for_start_without_backend
           World (sample_env None None [] 1 1) (mkMessageIn "start-miner" "")
           fresh_gui (0, [])); [discriminate | reflexivity].
Defined.

(** Apply-Configuration composes with Start: on the coordinator that a
    returning [save-configuration] leaves, [start-miner] finds a backend
    and does not panic. *)
Theorem start_after_save_configuration_finds_backend :
  forall (W : Type) (env : Env W) (command : MessageIn) (g : GUI W) (w w1 : W)
         (c : Config.t) (payload : string),
    config g = Some c ->
    outcome (configureMiner env command g w) = Ret tt ->
    miner (final_gui (configureMiner env command g w)) <> None /\
    outcome (handleElectronCommands env (mkMessageIn "start-miner" payload)
               (final_gui (configureMiner env command g w)) w1) <> Panic.
Proof.
  intros W env command g w w1 c payload Hc Hret.
  destruct (configureMiner_facts W env command g w c Hc) as (_ & _ & _ & Hok).
  destruct (Hok tt Hret) as (n & found & m & _ & _ & Hm & _).
  split; [rewrite Hm; discriminate|].
  pose proof (startMiner_with_backend_does_not_panic
                W env (final_gui (configureMiner env command g w)) w1 m Hm) as Hs.
  unfold handleElectronCommands. exec.
  destruct (startMiner env (final_gui (configureMiner env command g w)) w1)
    as [[[u| |] [g1 w2]] t1]; exec; unfold outcome in *; cbn [fst] in *;
    try discriminate.
  exfalso. apply Hs. reflexivity.
Qed.

Lemma start_after_save_configuration_finds_backend_witness :
  outcome (handleElectronCommands (sample_env None None [] 1 1)
             (mkMessageIn "start-miner" "")
             (final_gui (configureMiner (sample_env None None [] 1 1)
                           (mkMessageIn "save-configuration" "BLOC") fresh_gui (0, [])))
             (0, [])) <> Panic.
Proof.
  apply (start_after_save_configuration_finds_backend
           World (sample_env None None [] 1 1)
           (mkMessageIn "save-configuration" "BLOC") fresh_gui (0, []) (0, [])
           sample_config "" eq_refl eq_refl).
Defined.

(** ** Reading back what was configured *)

Lemma get_config_file_run :
  forall (W : Type) (env : Env W) (g : GUI W) (w : W) (c : Config.t)
         (payload : string),
    config g = Some c ->
    let shown :=
      frontendConfig.mk "" "" (Config.CoinType c) (Config.CoinAlgo c)
                        (Config.XmrigAlgo c) (Config.XmrigVariant c)
                        (Config.HardwareType c) 0 0 in
    json_Marshal_error env (VFrontendConfig shown) = None ->
    handleElectronCommands env (mkMessageIn "get-config-file" payload) g w
      = (Ret (JsonOf (VFrontendConfig shown), None), (g, w),
         [Log Debug "Received command from Electron";
          Log Info "Sending config to frontend"]).
Proof.
  intros W env g w c payload Hc shown Henc. subst shown.
  unfold handleElectronCommands, json_Marshal. exec.
  rewrite Hc. exec. rewrite Henc. reflexivity.
Qed.

(** Saving a configuration and reading it back: after an
    Apply-Configuration that returns, [get-config-file] shows the coin
    type, the algorithms and the hardware profile of the payload just
    applied; the address, the pool, the thread count and the CPU limit of
    the payload are not echoed (they read empty and zero), and the read
    changes nothing. *)
Theorem get_config_after_save_shows_editable_fields :
  forall (W : Type) (env : Env W) (command : MessageIn) (g : GUI W) (w w1 : W)
         (c : Config.t) (n : frontendConfig.t) (payload : string),
    config g = Some c ->
    json_Unmarshal env (Payload command) = inl n ->
    outcome (configureMiner env command g w) = Ret tt ->
    json_Marshal_error env (VFrontendConfig (shown_config n)) = None ->
    handleElectronCommands env (mkMessageIn "get-config-file" payload)
      (final_gui (configureMiner env command g w)) w1
      = (Ret (JsonOf (VFrontendConfig (shown_config n)), None),
         (final_gui (configureMiner env command g w), w1),
         [Log Debug "Received command from Electron";
          Log Info "Sending config to frontend"]).
Proof.
  intros W env command g w w1 c n payload Hc Hdec Hret Henc.
  destruct (configureMiner_facts W env command g w c Hc) as (_ & _ & _ & Hok).
  destruct (Hok tt Hret) as (n1 & found & m & Hdec1 & Hcfg & _).
  rewrite Hdec in Hdec1. injection Hdec1 as <-.
  apply (get_config_file_run W env _ w1 _ payload Hcfg). exact Henc.
Qed.

Lemma get_config_after_save_shows_editable_fields_witness :
  outcome
    (handleElectronCommands (sample_env None None [] 2 1)
       (mkMessageIn "get-config-file" "")
       (final_gui (configureMiner (sample_env None None [] 2 1)
                     (mkMessageIn "save-configuration" "XMR") fresh_gui (0, [])))
       (0, []))
  = Ret (JsonOf (VFrontendConfig (frontendConfig.mk "" "" "XMR" "cn" "cn/r" "r" 2 0 0)),
         None).
Proof.
  rewrite (get_config_after_save_shows_editable_fields
             World (sample_env None None [] 2 1)
             (mkMessageIn "save-configuration" "XMR") fresh_gui (0, []) (0, [])
             sample_config
             (frontendConfig.mk "addr1" "pool1" "XMR" "cn" "cn/r" "r" 2 4 80) ""
             eq_refl eq_refl eq_refl eq_refl).
  reflexivity.
Defined.

(** ** Informational commands *)

(** [get-processing-config] on a coordinator with a backend queries the
    statistics first and reads the processing configuration from the
    backend afterwards; whether the statistics query succeeded does not
    matter: its answer is dropped, and the reply is the JSON of the
    processing configuration. *)
Theorem get_processing_config_refreshes_stats_first :
  forall (W : Type) (env : Env W) (g : GUI W) (w w1 w2 : W) (m : Miner W)
         (answer : miner.Stats + error) (pc : miner.ProcessingConfig)
         (payload : string),
    miner g = Some m ->
    GetStats m w = (answer, w1) ->
    GetProcessingConfig m w1 = (pc, w2) ->
    json_Marshal_error env (VProcessingConfig pc) = None ->
    handleElectronCommands env (mkMessageIn "get-processing-config" payload) g w
      = (Ret (JsonOf (VProcessingConfig pc), None), (g, w2),
         [Log Debug "Received command from Electron";
          MinerGetStats answer;
          MinerGetProcessingConfig pc]).
Proof.
  intros W env g w w1 w2 m answer pc payload Hm Hstats Hpc Henc.
  unfold handleElectronCommands, json_Marshal. exec.
  rewrite Hm. exec. rewrite Hstats. exec. rewrite Hpc. exec. rewrite Henc.
  reflexivity.
Qed.

Lemma get_processing_config_refreshes_stats_first_witness :
  outcome
    (handleElectronCommands (sample_env None None [] 1 1)
       (mkMessageIn "get-processing-config" "")
       (mkGUI (Some sample_config) false (Some silent_miner) "/opt" 0%float
              "index.html")
       (0, []))
  = Ret (JsonOf (VProcessingConfig (miner.mkProcessingConfig 2 50)), None).
Proof.
  rewrite (get_processing_config_refreshes_stats_first
             World (sample_env None None [] 1 1)
             (mkGUI (Some sample_config) false (Some silent_miner) "/opt" 0%float
                    "index.html")
             (0, []) (0, []) (0, []) silent_miner (inr "connection refused")
             (miner.mkProcessingConfig 2 50) "" eq_refl eq_refl eq_refl eq_refl).
  reflexivity.
Defined.

(** [get-processing-config] on a coordinator without backend sends a
    [fatal_error] event to the UI but, unlike the other senders of that
    event, neither waits nor exits: it returns an empty reply and no
    backend operation is performed. *)
Theorem get_processing_config_without_backend_reports_and_continues :
  forall (W : Type) (env : Env W) (g : GUI W) (w : W) (payload : string),
    miner g = None ->
    (forall msg, json_Marshal_error env (VMessage msg) = None) ->
    outcome (handleElectronCommands env (mkMessageIn "get-processing-config" payload) g w)
      = Ret (Str "", None) /\
    final_gui (handleElectronCommands env (mkMessageIn "get-processing-config" payload) g w)
      = g /\
    trace (handleElectronCommands env (mkMessageIn "get-processing-config" payload) g w)
      = [Log Debug "Received command from Electron";
         SendMessage "fatal_error"
           (JsonOf (VMessage (mkElectronMessage
              "Unable to fetch miner config.Please check that your miner is working and running.")))].
Proof.
  intros W env g w payload Hm Henc.
  unfold handleElectronCommands. exec. rewrite Hm. exec.
  rewrite (sendElectronCommand_encoded W env "fatal_error" _ g w (Henc _)).
  repeat split.
Qed.

Lemma get_processing_config_without_backend_reports_and_continues_witness :
  outcome (handleElectronCommands (sample_env None None [] 1 1)
             (mkMessageIn "get-processing-config" "") fresh_gui (0, []))
  = Ret (Str "", None).
Proof.
  apply (get_processing_config_without_backend_reports_and_continues
           World (sample_env None None [] 1 1) fresh_gui (0, []) ""
           eq_refl (fun _ => eq_refl)).
Defined.

(** The same failure, two policies: when the bundled miner cannot be
    detected, [get-miner-type] answers with an empty type, sends nothing
    to the UI and goes on, whereas Apply-Configuration (whose payload
    decodes) has by then written the payload into the session in memory,
    creates no backend, persists nothing, and ends the process after the
    grace period. *)
Theorem detection_failure_is_fatal_only_when_configuring :
  forall (W : Type) (env : Env W) (command : MessageIn) (g : GUI W) (w w1 : W)
         (c : Config.t) (n : frontendConfig.t) (e : error) (payload : string),
    DetermineMinerType env (filepath_Join env (workingDir g) "miner") w = (inr e, w1) ->
    config g = Some c ->
    json_Unmarshal env (Payload command) = inl n ->
    handleElectronCommands env (mkMessageIn "get-miner-type" payload) g w
      = (Ret (Str "", None), (g, w1),
         [Log Debug "Received command from Electron";
          DetermineMinerTypeCall (filepath_Join env (workingDir g) "miner")]) /\
    outcome (configureMiner env command g w) = Exit /\
    ends_with_grace_exit (trace (configureMiner env command g w)) = true /\
    created_backends (trace (configureMiner env command g w)) = [] /\
    saved_configs (trace (configureMiner env command g w)) = [] /\
    option_map Config.CoinType (config (final_gui (configureMiner env command g w)))
      = Some (frontendConfig.CoinType n) /\
    miner (final_gui (configureMiner env command g w)) = miner g.
Proof.
  intros W env command g w w1 c n e payload Hdet Hc Hdec.
  split.
  - unfold handleElectronCommands. exec. rewrite Hdet. reflexivity.
  - unfold configureMiner, fatal_configure, sendElectronCommand, json_Marshal.
    exec. rewrite Hdec. exec. rewrite Hc. exec. rewrite Hdet. exec.
    destruct (json_Marshal_error env _) as [e1|]; exec.
    + repeat split.
    + destruct (bootstrap_SendMessage env _ _ w1) as [r w2]. repeat split.
Qed.

Lemma detection_failure_is_fatal_only_when_configuring_witness :
  outcome
    (handleElectronCommands
       (with_DetermineMinerType (fun _ w => (inr "no miner found", w))
                                (sample_env None None [] 1 1))
       (mkMessageIn "get-miner-type" "") (sample_gui None None) (0, []))
    = Ret (Str "", None) /\
  outcome
    (configureMiner
       (with_DetermineMinerType (fun _ w => (inr "no miner found", w))
                                (sample_env None None [] 1 1))
       (mkMessageIn "save-configuration" "BLOC") (sample_gui None None) (0, []))
    = Exit.
Proof.
  destruct (detection_failure_is_fatal_only_when_configuring
              World
              (with_DetermineMinerType (fun _ w => (inr "no miner found", w))
                                       (sample_env None None [] 1 1))
              (mkMessageIn "save-configuration" "BLOC") (sample_gui None None)
              (0, []) (0, []) sample_config
              (frontendConfig.mk "addr1" "pool1" "BLOC" "cn" "cn/r" "r" 1 4 80)
              "no miner found" "" eq_refl eq_refl eq_refl)
    as (Hget & Hexit & _).
  split; [rewrite Hget; reflexivity | exact Hexit].
Defined.

(** ** The pollers *)

Lemma updateNetworkStats_facts :
  forall (W : Type) (env : Env W) (g : GUI W) (w : W),
    outcome (updateNetworkStats env g w) = Ret tt /\
    final_gui (updateNetworkStats env g w) = g /\
    count_events "fatal_error" (trace (updateNetworkStats env g w)) = 0%nat /\
    fetches (trace (updateNetworkStats env g w))
      = match config g with
        | None => []
        | Some c => [(Config.PoolID c, lastHashrate g, Config.Mid c)]
        end /\
    count_events "network_stats" (trace (updateNetworkStats env g w))
      = match config g with
        | None => 0%nat
        | Some c =>
            match fst (GetNetworkStats env g (Config.PoolID c) (lastHashrate g)
                                       (Config.Mid c) w) with
            | inl _ => 1%nat
            | inr _ => 0%nat
            end
        end.
Proof.
  intros W env g w.
  unfold updateNetworkStats. exec.
  destruct (config g) as [c|]; exec; [|repeat split].
  destruct (GetNetworkStats env g (Config.PoolID c) (lastHashrate g) (Config.Mid c) w)
    as [[stats|e] w1]; exec; [|repeat split].
  destruct (bootstrap_SendMessage env "network_stats" (Net stats) w1) as [[e|] w2];
    exec; repeat split.
Qed.

(** A network-stats update never ends the process and never panics,
    whatever the pool API and the transport answer: it returns, leaves the
    coordinator as it is, sends no [fatal_error], and fetches at most once,
    with the session's pool, the last-observed hashrate and the session
    identifier; without a session it fetches nothing.  The statistics are
    sent to the UI exactly when the fetch succeeded. *)
Theorem updateNetworkStats_is_best_effort :
  forall (W : Type) (env : Env W) (g : GUI W) (w : W),
    outcome (updateNetworkStats env g w) = Ret tt /\
    final_gui (updateNetworkStats env g w) = g /\
    count_events "fatal_error" (trace (updateNetworkStats env g w)) = 0%nat /\
    fetches (trace (updateNetworkStats env g w))
      = match config g with
        | None => []
        | Some c => [(Config.PoolID c, lastHashrate g, Config.Mid c)]
        end /\
    count_events "network_stats" (trace (updateNetworkStats env g w))
      = match config g with
        | None => 0%nat
        | Some c =>
            match fst (GetNetworkStats env g (Config.PoolID c) (lastHashrate g)
                                       (Config.Mid c) w) with
            | inl _ => 1%nat
            | inr _ => 0%nat
            end
        end.
Proof.
  intros W env g w. apply updateNetworkStats_facts.
Qed.

Lemma count_events_app :
  forall (name : string) (t1 t2 : list Effect),
    count_events name (t1 ++ t2) = (count_events name t1 + count_events name t2)%nat.
Proof.
  intros name. induction t1 as [|e t1 IH]; intros t2; [reflexivity|].
  destruct e; cbn [app count_events]; try apply IH.
  destruct (String.eqb name0 name); cbn [plus]; rewrite IH; reflexivity.
Qed.

Lemma emitted_stats_app :
  forall t1 t2 : list Effect,
    emitted_stats (t1 ++ t2) = emitted_stats t1 ++ emitted_stats t2.
Proof.
  induction t1 as [|e t1 IH]; intros t2; [reflexivity|].
  destruct e; cbn [app emitted_stats]; try apply IH.
  destruct payload as [| |v|]; try apply IH.
  destruct v; try apply IH.
  destruct (String.eqb name "miner_stats"); cbn [app]; rewrite IH; reflexivity.
Qed.

Lemma fetches_app :
  forall t1 t2 : list Effect, fetches (t1 ++ t2) = fetches t1 ++ fetches t2.
Proof.
  induction t1 as [|e t1 IH]; intros t2; [reflexivity|].
  destruct e; cbn [app fetches]; rewrite IH; reflexivity.
Qed.

(** One tick of the mining loop on a coordinator that has a session. *)
Lemma miningStatsTick_emissions :
  forall (W : Type) (env : Env W) (l : Z) (g : GUI W) (w : W) (c : Config.t),
    config g = Some c ->
    (exists l1, outcome (miningStatsTick env l g w) = Ret l1) /\
    count_events "fatal_error" (trace (miningStatsTick env l g w)) = 0%nat /\
    count_events "miner_stats" (trace (miningStatsTick env l g w))
      = length (observed (trace (miningStatsTick env l g w))) /\
    Forall (fun s => miner.Address s = Config.Address c)
           (emitted_stats (trace (miningStatsTick env l g w))) /\
    ((forall v, json_Marshal_error env v = None) ->
     map miner.Hashrate (emitted_stats (trace (miningStatsTick env l g w)))
       = observed (trace (miningStatsTick env l g w))) /\
    Forall (fresh_fetch c (observed (trace (miningStatsTick env l g w))))
           (fetches (trace (miningStatsTick env l g w))).
Proof.
  intros W env l g w c Hc.
  destruct g as [cfg dbg mn wd lh sp]. cbn [config] in Hc. subst cfg.
  unfold miningStatsTick, updateNetworkStats, json_Marshal. exec.
  repeat (case_step; exec).
  all: unfold outcome, trace, fresh_fetch;
       cbn [fst snd app count_events observed emitted_stats fetches length map
            String.eqb Ascii.eqb Bool.eqb miner.Hashrate miner.Address
            miner.set_Address miner.set_UpdateGraph].
  all: split; [eexists; reflexivity|].
  all: split; [reflexivity|].
  all: split; [reflexivity|].
  all: split; [repeat constructor|].
  all: split;
       [intros Henc;
        try match goal with
            | H : json_Marshal_error _ ?v = Some _ |- _ =>
                rewrite (Henc v) in H; discriminate H
            end;
        reflexivity|].
  all: repeat constructor; cbn [fst snd];
       try reflexivity;
       try match goal with
           | H : (_ && _)%bool = true |- _ =>
               apply andb_true_iff in H; destruct H as [_ H]; exact H
           end.
Qed.

Lemma fresh_fetch_more_reports :
  forall (c : Config.t) (r1 r2 : list float) (fs : list (string * float * string)),
    (forall h, In h r1 -> In h r2) ->
    Forall (fresh_fetch c r1) fs -> Forall (fresh_fetch c r2) fs.
Proof.
  intros c r1 r2 fs Hsub Hall.
  apply (Forall_impl (fresh_fetch c r2)) with (2 := Hall).
  intros f (Hp & Hm & Hpos & Hin). repeat split; try assumption.
  apply Hsub. exact Hin.
Qed.

Lemma miningStatsTicks_emissions :
  forall (W : Type) (env : Env W) (n : nat) (l : Z) (g : GUI W) (w : W)
         (c : Config.t),
    config g = Some c ->
    (exists l1, outcome (miningStatsTicks env n l g w) = Ret l1) /\
    count_events "fatal_error" (trace (miningStatsTicks env n l g w)) = 0%nat /\
    count_events "miner_stats" (trace (miningStatsTicks env n l g w))
      = length (observed (trace (miningStatsTicks env n l g w))) /\
    Forall (fun s => miner.Address s = Config.Address c)
           (emitted_stats (trace (miningStatsTicks env n l g w))) /\
    ((forall v, json_Marshal_error env v = None) ->
     map miner.Hashrate (emitted_stats (trace (miningStatsTicks env n l g w)))
       = observed (trace (miningStatsTicks env n l g w))) /\
    Forall (fresh_fetch c (observed (trace (miningStatsTicks env n l g w))))
           (fetches (trace (miningStatsTicks env n l g w))).
Proof.
  intros W env n. induction n as [|n IH]; intros l g w c Hc.
  - cbn. repeat split; try constructor. eexists; reflexivity.
  - cbn [miningStatsTicks]. unfold bind.
    destruct (miningStatsTick_emissions W env l g w c Hc)
      as ([l1 Hret] & Hf & Hn & Ha & Hm & Hfe).
    destruct (miningStatsTick_hashrate W env l g w) as (_ & Hcfg & _).
    destruct (miningStatsTick env l g w) as [[o [g1 w1]] t1].
    unfold outcome, trace, final_gui in Hret, Hf, Hn, Ha, Hm, Hfe, Hcfg.
    cbn [fst snd] in Hret, Hf, Hn, Ha, Hm, Hfe, Hcfg. subst o.
    assert (Hc1 : config g1 = Some c) by (rewrite Hcfg; exact Hc).
    destruct (IH l1 g1 w1 c Hc1) as (Hret2 & Hf2 & Hn2 & Ha2 & Hm2 & Hfe2).
    destruct (miningStatsTicks env n l1 g1 w1) as [[o2 s2] t2].
    unfold outcome, trace in *. cbn [fst snd] in *.
    split; [exact Hret2|].
    rewrite !count_events_app, emitted_stats_app, observed_app, fetches_app.
    split; [rewrite Hf, Hf2; reflexivity|].
    split; [rewrite length_app, Hn, Hn2; reflexivity|].
    split; [apply Forall_app; split; assumption|].
    split.
    + intros Henc. rewrite map_app, (Hm Henc), (Hm2 Henc). reflexivity.
    + apply Forall_app. split.
      * apply (fresh_fetch_more_reports c (observed t1)); [|exact Hfe].
        intros h Hin. apply in_or_app. left. exact Hin.
      * apply (fresh_fetch_more_reports c (observed t2)); [|exact Hfe2].
        intros h Hin. apply in_or_app. right. exact Hin.
Qed.

(** The mining loop runs for as long as the ticker delivers ticks: on a
    coordinator that has a session it never ends the process and never
    panics, whatever the backend, the pool API, the clock, the encoder and
    the transport answer, and it never sends a [fatal_error]. *)
Theorem mining_loop_never_ends_the_process :
  forall (W : Type) (env : Env W) (ticks : nat) (g : GUI W) (w : W),
    config g <> None ->
    (exists l, outcome (updateMiningStatsLoop env ticks g w) = Ret l) /\
    count_events "fatal_error" (trace (updateMiningStatsLoop env ticks g w)) = 0%nat.
Proof.
  intros W env ticks g w Hc.
  destruct (config g) as [c|] eqn:Hcfg; [clear Hc | congruence].
  unfold updateMiningStatsLoop, time_Now_, call, bind.
  destruct (time_Now env w) as [t0 w0].
  destruct (miningStatsTicks_emissions W env ticks t0 g w0 c Hcfg)
    as (Hret & Hf & _).
  destruct (miningStatsTicks env ticks t0 g w0) as [[o s] t].
  unfold outcome, trace in *. cbn [fst snd app count_events] in *.
  split; assumption.
Qed.

Lemma mining_loop_never_ends_the_process_witness :
  exists l,
    outcome (updateMiningStatsLoop
               (with_GetNetworkStats (fun _ _ _ _ w => (inr "timeout", w))
                                     (sample_env None None [] 1 1))
               3 (sample_gui None None) (0, [5]%float)) = Ret l.
Proof.
  apply (mining_loop_never_ends_the_process
           World
           (with_GetNetworkStats (fun _ _ _ _ w => (inr "timeout", w))
                                 (sample_env None None [] 1 1))
           3 (sample_gui None None) (0, [5]%float)).
  discriminate.
Defined.

(** Every statistics report of the backend is passed on: the mining loop
    sends exactly one [miner_stats] event per successful query, each one
    stamped with the session's account address, and (when the statistics
    encode) the emitted hashrates are the reported ones, in order. *)
Theorem one_emission_per_report :
  forall (W : Type) (env : Env W) (ticks : nat) (g : GUI W) (w : W) (c : Config.t),
    config g = Some c ->
    count_events "miner_stats" (trace (updateMiningStatsLoop env ticks g w))
      = length (observed (trace (updateMiningStatsLoop env ticks g w))) /\
    Forall (fun s => miner.Address s = Config.Address c)
           (emitted_stats (trace (updateMiningStatsLoop env ticks g w))) /\
    ((forall v, json_Marshal_error env v = None) ->
     map miner.Hashrate (emitted_stats (trace (updateMiningStatsLoop env ticks g w)))
       = observed (trace (updateMiningStatsLoop env ticks g w))).
Proof.
  intros W env ticks g w c Hc.
  unfold updateMiningStatsLoop, time_Now_, call, bind.
  destruct (time_Now env w) as [t0 w0].
  destruct (miningStatsTicks_emissions W env ticks t0 g w0 c Hc)
    as (_ & _ & Hn & Ha & Hm & _).
  destruct (miningStatsTicks env ticks t0 g w0) as [[o s] t].
  unfold trace in *. cbn [fst snd app count_events observed emitted_stats] in *.
  repeat split; assumption.
Qed.

Lemma one_emission_per_report_witness :
  map miner.Hashrate
    (emitted_stats (trace (updateMiningStatsLoop (sample_env None None [] 1 1) 4
                             (sample_gui None None) (0, [5; 0; 7]%float))))
  = [5; 0; 7]%float.
Proof.
  destruct (one_emission_per_report
              World (sample_env None None [] 1 1) 4 (sample_gui None None)
              (0, [5; 0; 7]%float) sample_config eq_refl) as (_ & _ & Hm).
  rewrite (Hm (fun _ => eq_refl)). reflexivity.
Defined.

(** The immediate fetch reports fresh figures: every network-stats fetch
    that the mining loop triggers is keyed by the session's pool and
    identifier and carries a positive hashrate reported by the backend
    (the last-observed hashrate is updated before the fetch), never the
    zero that was stored before. *)
Theorem immediate_fetch_reports_the_new_hashrate :
  forall (W : Type) (env : Env W) (ticks : nat) (g : GUI W) (w : W) (c : Config.t),
    config g = Some c ->
    Forall (fresh_fetch c (observed (trace (updateMiningStatsLoop env ticks g w))))
           (fetches (trace (updateMiningStatsLoop env ticks g w))).
Proof.
  intros W env ticks g w c Hc.
  unfold updateMiningStatsLoop, time_Now_, call, bind.
  destruct (time_Now env w) as [t0 w0].
  destruct (miningStatsTicks_emissions W env ticks t0 g w0 c Hc)
    as (_ & _ & _ & _ & _ & Hfe).
  destruct (miningStatsTicks env ticks t0 g w0) as [[o s] t].
  unfold trace in *. cbn [fst snd app observed fetches] in *.
  exact Hfe.
Qed.

Lemma immediate_fetch_reports_the_new_hashrate_witness :
  fetches (trace (updateMiningStatsLoop (sample_env None None [] 1 1) 3
                    (sample_gui None None) (0, [5; 0; 7]%float)))
    = [("pool1", 5%float, "4b1f-0001"); ("pool1", 7%float, "4b1f-0001")] /\
  Forall (fresh_fetch sample_config [5; 0; 7]%float)
    (fetches (trace (updateMiningStatsLoop (sample_env None None [] 1 1) 3
                       (sample_gui None None) (0, [5; 0; 7]%float)))).
Proof.
  split; [reflexivity|].
  apply (immediate_fetch_reports_the_new_hashrate
           World (sample_env None None [] 1 1) 3 (sample_gui None None)
           (0, [5; 0; 7]%float) sample_config eq_refl).
Defined.

Lemma read_only_miningStatsTick :
  forall (W : Type) (env : Env W) (l : Z),
    respects (fun g : GUI W => (config g, miner g, fixed_part g))
             (fun e => is_mutation e = false) (miningStatsTick env l).
Proof.
  intros W env l. unfold miningStatsTick, updateNetworkStats. frame_auto.
Qed.

Lemma read_only_miningStatsTicks :
  forall (W : Type) (env : Env W) (n : nat) (l : Z),
    respects (fun g : GUI W => (config g, miner g, fixed_part g))
             (fun e => is_mutation e = false) (miningStatsTicks env n l).
Proof.
  intros W env n. induction n as [|n IH]; intros l; cbn [miningStatsTicks].
  - apply respects_ret.
  - apply respects_bind; [apply read_only_miningStatsTick | intros l1; apply IH].
Qed.

(** The pollers only read: neither the mining loop nor a network-stats
    update changes the session, the backend instance, the debug flag, the
    working directory or the start page, and neither starts, stops,
    creates or configures a backend or writes to the configuration store;
    the only backend operation of the mining loop is the statistics
    query. *)
Theorem pollers_only_read :
  forall (W : Type) (env : Env W) (ticks : nat) (g : GUI W) (w : W),
    (config (final_gui (updateMiningStatsLoop env ticks g w)) = config g /\
     miner (final_gui (updateMiningStatsLoop env ticks g w)) = miner g /\
     fixed_part (final_gui (updateMiningStatsLoop env ticks g w)) = fixed_part g /\
     Forall (fun e => is_mutation e = false)
            (trace (updateMiningStatsLoop env ticks g w))) /\
    (final_gui (updateNetworkStats env g w) = g /\
     Forall (fun e => is_mutation e = false) (trace (updateNetworkStats env g w))).
Proof.
  intros W env ticks g w. split.
  - assert (Hloop :
      respects (fun g : GUI W => (config g, miner g, fixed_part g))
               (fun e => is_mutation e = false) (updateMiningStatsLoop env ticks)).
    { unfold updateMiningStatsLoop, time_Now_.
      apply respects_bind; [frame_auto | intros l; apply read_only_miningStatsTicks]. }
    destruct (Hloop g w) as [Hproj Hall].
    injection Hproj as Hc Hm Hd Hw Hp.
    repeat split; try assumption.
    unfold fixed_part. rewrite Hd, Hw, Hp. reflexivity.
  - assert (Hnet :
      respects (fun g : GUI W => g) (fun e => is_mutation e = false)
               (updateNetworkStats env)).
    { unfold updateNetworkStats. frame_auto. }
    exact (Hnet g w).
Qed.

Lemma miningStatsTick_reported :
  forall (W : Type) (env : Env W) (l : Z) (g : GUI W) (w w1 : W) (m : Miner W)
         (s : miner.Stats),
    miner g = Some m ->
    GetStats m w = (inl s, w1) ->
    observed (trace (miningStatsTick env l g w)) = [miner.Hashrate s].
Proof.
  intros W env l g w w1 m s Hm Hstats.
  destruct g as [cfg dbg mn wd lh sp]. cbn [miner] in Hm. subst mn.
  unfold miningStatsTick, updateNetworkStats, json_Marshal. exec.
  rewrite Hstats. exec.
  repeat (case_step; exec).
  all: reflexivity.
Qed.

(** The two pollers compose through the last-observed hashrate: after a
    local-stats tick whose query succeeded, the next network-stats update
    asks the pool API with the hashrate that tick reported. *)
Theorem network_fetch_reports_latest_hashrate :
  forall (W : Type) (env : Env W) (l : Z) (g : GUI W) (w w1 w2 : W)
         (c : Config.t) (m : Miner W) (s : miner.Stats),
    config g = Some c ->
    miner g = Some m ->
    GetStats m w = (inl s, w1) ->
    fetches (trace (updateNetworkStats env (final_gui (miningStatsTick env l g w)) w2))
      = [(Config.PoolID c, miner.Hashrate s, Config.Mid c)].
Proof.
  intros W env l g w w1 w2 c m s Hc Hm Hstats.
  destruct (miningStatsTick_hashrate W env l g w) as (Hh & Hcfg & _).
  rewrite (miningStatsTick_reported W env l g w w1 m s Hm Hstats) in Hh.
  unfold last_hashrate in Hh. cbn [last] in Hh.
  destruct (updateNetworkStats_facts W env (final_gui (miningStatsTick env l g w)) w2)
    as (_ & _ & _ & Hf & _).
  rewrite Hf, Hcfg, Hc, Hh. reflexivity.
Qed.

Lemma network_fetch_reports_latest_hashrate_witness :
  fetches
    (trace (updateNetworkStats (sample_env None None [] 1 1)
              (final_gui (miningStatsTick (sample_env None None [] 1 1) 0
                            (sample_gui None None) (0, [9]%float)))
              (0, [])))
  = [("pool1", 9%float, "4b1f-0001")].
Proof.
  apply (network_fetch_reports_latest_hashrate
           World (sample_env None None [] 1 1) 0 (sample_gui None None)
           (0, [9]%float) (0, []) (0, []) sample_config (sample_miner None None)
           (miner.mkStats 9 "" false) eq_refl eq_refl eq_refl).
Defined.

(** ** Stop, shutdown and construction *)

Lemma stopMiner_facts :
  forall (W : Type) (env : Env W) (g : GUI W) (w : W),
    outcome (stopMiner env g w)
      = Ret (match miner g with
             | None => None
             | Some m => fst (Stop m w)
             end) /\
    final_gui (stopMiner env g w) = g /\
    count_backend_ops (trace (stopMiner env g w))
      = (match miner g with None => 0 | Some _ => 1 end)%nat /\
    Forall (fun e => is_start e = false /\ is_reconfiguration e = false)
           (trace (stopMiner env g w)).
Proof.
  intros W env g w.
  unfold stopMiner, sendElectronCommand, json_Marshal. exec.
  destruct (miner g) as [m|]; exec; [|repeat split; constructor].
  destruct (Stop m w) as [[e|] w1]; exec.
  - destruct (json_Marshal_error env _) as [e1|]; exec.
    + repeat split; repeat constructor.
    + destruct (bootstrap_SendMessage env _ _ w1) as [r w2].
      repeat split; repeat constructor.
  - repeat split; repeat constructor.
Qed.

(** The Stop procedure always returns, with exactly the backend's answer
    (nil when there is no backend), and it keeps the coordinator as it
    is: the backend instance stays installed, so a stopped backend can be
    started again; it performs at most the one stop operation. *)
Theorem stopMiner_returns_the_backend_answer :
  forall (W : Type) (env : Env W) (g : GUI W) (w : W),
    outcome (stopMiner env g w)
      = Ret (match miner g with
             | None => None
             | Some m => fst (Stop m w)
             end) /\
    final_gui (stopMiner env g w) = g /\
    count_backend_ops (trace (stopMiner env g w))
      = (match miner g with None => 0 | Some _ => 1 end)%nat /\
    Forall (fun e => is_start e = false /\ is_reconfiguration e = false)
           (trace (stopMiner env g w)).
Proof.
  intros W env g w. apply stopMiner_facts.
Qed.

(** [Run] stops the backend only when the application ended without
    error: if [bootstrap.Run] returns an error, [Run] returns it at once
    and the backend is left as it is, no stop operation being performed;
    otherwise the Stop procedure runs on the coordinator the application
    left, and [Run] returns its result. *)
Theorem Run_stops_the_backend_only_after_a_clean_end :
  forall (W : Type) (env : Env W) (application : M W (option error))
         (g g1 : GUI W) (w w1 : W) (t : list Effect) (ended : option error),
    application g w = (Ret ended, (g1, w1), t) ->
    match ended with
    | Some e =>
        Run env application g w
          = (Ret (Some e), (g1, w1), Log Info "Starting miner" :: t)
    | None =>
        outcome (Run env application g w) = outcome (stopMiner env g1 w1) /\
        final_gui (Run env application g w) = g1 /\
        trace (Run env application g w)
          = Log Info "Starting miner" :: t ++ trace (stopMiner env g1 w1)
    end.
Proof.
  intros W env application g g1 w w1 t ended Happ.
  unfold Run. exec. rewrite Happ.
  destruct ended as [e|]; exec.
  - rewrite app_nil_r. reflexivity.
  - destruct (stopMiner_facts W env g1 w1) as (Ho & Hg & _).
    destruct (stopMiner env g1 w1) as [[o [g2 w2]] t2].
    unfold outcome, final_gui, trace in *. cbn [fst snd] in *. subst o g2.
    destruct (match miner g1 with
              | Some m => fst (Stop m w1)
              | None => None
              end); exec; rewrite ?app_nil_r; repeat split.
Qed.

Lemma Run_stops_the_backend_only_after_a_clean_end_witness :
  Run (sample_env None None [] 1 1)
      (fun g w => (Ret (Some "electron crashed"), (g, w), []))
      (sample_gui None None) (0, [])
  = (Ret (Some "electron crashed"), (sample_gui None None, (0, [])),
     [Log Info "Starting miner"]).
Proof.
  apply (Run_stops_the_backend_only_after_a_clean_end
           World (sample_env None None [] 1 1)
           (fun g w => (Ret (Some "electron crashed"), (g, w), []))
           (sample_gui None None) (sample_gui None None) (0, []) (0, []) []
           (Some "electron crashed") eq_refl).
Defined.

(** Every way [New] can end.  It never exits; it panics only in debug
    mode (when [debug.log] cannot be opened); an empty API endpoint is
    refused before anything else is looked at; and every coordinator it
    returns has a session, has a backend exactly when a persisted
    configuration was given, starts with a zero last-observed hashrate and
    opens on [index.html] for a persisted configuration and on
    [firstrun.html] otherwise. *)
Theorem New_builds_a_coordinator_with_a_session :
  forall (W : Type) (env : Env W) (appName : string) (persisted : option Config.t)
         (apiEndpoint coinType coinAlgo XmrigAlgo XmrigVariant workingDir0 : string)
         (isDebug : bool) (w : W),
    fst (fst (New env appName persisted apiEndpoint coinType coinAlgo XmrigAlgo
                  XmrigVariant workingDir0 isDebug w)) <> Exit /\
    (apiEndpoint = "" ->
     New env appName persisted apiEndpoint coinType coinAlgo XmrigAlgo XmrigVariant
         workingDir0 isDebug w
       = (Ret (inr "The API Endpoint must be specified"), w, [])) /\
    (fst (fst (New env appName persisted apiEndpoint coinType coinAlgo XmrigAlgo
                   XmrigVariant workingDir0 isDebug w)) = Panic ->
     isDebug = true) /\
    (forall g : GUI W,
       fst (fst (New env appName persisted apiEndpoint coinType coinAlgo XmrigAlgo
                     XmrigVariant workingDir0 isDebug w)) = Ret (inl g) ->
       apiEndpoint <> "" /\
       config g <> None /\
       (miner g = None <-> persisted = None) /\
       inDebugMode g = isDebug /\
       workingDir g = workingDir0 /\
       lastHashrate g = 0%float /\
       startPage g = match persisted with
                     | Some _ => "index.html"
                     | None => "firstrun.html"
                     end).
Proof.
  intros W env appName persisted apiEndpoint coinType coinAlgo XmrigAlgo
         XmrigVariant workingDir0 isDebug w.
  unfold New, New_setup.
  destruct (String.eqb_spec apiEndpoint "") as [Hempty | Hfull].
  - repeat split; try discriminate; intros; discriminate.
  - exec.
    destruct persisted as [c|]; exec.
    + destruct (CreateMiner env _ w) as [[m|e] w0]; exec.
      * destruct isDebug; exec.
        -- destruct (os_OpenFile env _ w0) as [[e|] w1]; exec;
             (split; [discriminate|]); (split; [intros H; contradiction|]);
             (split; [try discriminate; reflexivity|]);
             intros g Hret; inversion Hret; subst; cbn;
             repeat split; try assumption; try discriminate.
        -- (split; [discriminate|]); (split; [intros H; contradiction|]);
             (split; [discriminate|]);
             intros g Hret; inversion Hret; subst; cbn;
             repeat split; try assumption; try discriminate.
      * (split; [discriminate|]); (split; [intros H; contradiction|]);
          (split; [discriminate|]); intros g Hret; discriminate Hret.
    + destruct (uuid_New env w) as [mid w0]. exec.
      destruct isDebug; exec.
      * destruct (os_OpenFile env _ w0) as [[e|] w1]; exec;
          (split; [discriminate|]); (split; [intros H; contradiction|]);
          (split; [try discriminate; reflexivity|]);
          intros g Hret; inversion Hret; subst; cbn;
          repeat split; try assumption; try discriminate.
      * (split; [discriminate|]); (split; [intros H; contradiction|]);
          (split; [discriminate|]);
          intros g Hret; inversion Hret; subst; cbn;
          repeat split; try assumption; try discriminate.
Qed.

Lemma New_builds_a_coordinator_with_a_session_witness :
  New (sample_env None None [] 1 1) "BLOC GUI Miner" (Some sample_config) ""
      "BLOC" "cn" "cn/r" "r" "/opt" true (0, [])
    = (Ret (inr "The API Endpoint must be specified"), (0, []), []) /\
  fst (fst (New (with_os_OpenFile (fun _ w => (Some "permission denied", w))
                                  (sample_env None None [] 1 1))
                "BLOC GUI Miner" None "https://api" "BLOC" "cn" "cn/r" "r" "/opt"
                true (0, []))) = Panic.
Proof.
  split; [|reflexivity].
  apply (New_builds_a_coordinator_with_a_session
           World (sample_env None None [] 1 1) "BLOC GUI Miner" (Some sample_config)
           "" "BLOC" "cn" "cn/r" "r" "/opt" true (0, [])).
  reflexivity.
Defined.

(** ** A whole session *)

Lemma ends_relax :
  forall (W A : Type) (I : GUI W -> Prop) (C C1 : Prop) (Q : A -> Prop) (m : M W A),
    (C -> C1) -> ends I C Q m -> ends I C1 Q m.
Proof.
  intros W A I C C1 Q m Himp Hm g w Hg.
  destruct (Hm g w Hg) as [Hp Hr].
  split; [intros Hpanic; apply Himp, Hp; exact Hpanic | exact Hr].
Qed.

Lemma ends_updateNetworkStats :
  forall (W : Type) (env : Env W) (I : GUI W -> Prop) (C : Prop),
    ends I C (fun _ => True) (updateNetworkStats env).
Proof. intros W env I C. unfold updateNetworkStats. ends_auto. Qed.

Lemma ends_miningStatsTick :
  forall (W : Type) (env : Env W) (C : Prop) (l : Z),
    ends (fun g => config g <> None) C (fun _ => True) (miningStatsTick env l).
Proof.
  intros W env C l. unfold miningStatsTick, updateNetworkStats. ends_auto.
Qed.

Lemma ends_run_session :
  forall (W : Type) (env : Env W) (acts : list Activity) (l : Z),
    ends (fun g => config g <> None)
         (exists c, In (Command c) acts /\ Name c = "start-miner")
         (fun _ => True) (run_session env acts l).
Proof.
  intros W env acts. induction acts as [|a acts IH]; intros l; cbn [run_session].
  - apply ends_ret. exact Logic.I.
  - apply ends_bind_any.
    + destruct a as [| |c]; cbn [run_activity].
      * apply ends_miningStatsTick.
      * apply ends_bind_any; [apply ends_updateNetworkStats | intros ?].
        apply ends_ret. exact Logic.I.
      * apply ends_bind_any; [|intros ?; apply ends_ret; exact Logic.I].
        apply ends_weaken with (Q := reply_ok (Name c)).
        apply ends_relax with (C := Name c = "start-miner");
          [|apply ends_handleElectronCommands].
        intros Hname. exists c. split; [left; reflexivity | exact Hname].
    + intros l1.
      apply ends_relax
        with (C := exists c, In (Command c) acts /\ Name c = "start-miner");
        [|apply IH].
      intros (c & Hin & Hname). exists c. split; [right; exact Hin | exact Hname].
Qed.

(** Along any session of ticks and commands that starts from a
    coordinator with a session (as [New] builds them), the session is
    never lost, and the only thing that can panic is a [start-miner]
    command: pollers, Apply-Configuration and every other command are
    safe from nil dereferences. *)
Theorem session_panics_only_on_start_miner :
  forall (W : Type) (env : Env W) (acts : list Activity) (l : Z) (g : GUI W) (w : W),
    config g <> None ->
    (outcome (run_session env acts l g w) = Panic ->
     exists c, In (Command c) acts /\ Name c = "start-miner") /\
    (forall l1, outcome (run_session env acts l g w) = Ret l1 ->
                config (final_gui (run_session env acts l g w)) <> None).
Proof.
  intros W env acts l g w Hc.
  destruct (ends_run_session W env acts l g w Hc) as [Hp Hr].
  split; [exact Hp|].
  intros l1 Hret. apply (Hr l1 Hret).
Qed.

Lemma session_panics_only_on_start_miner_witness :
  outcome (run_session (sample_env None None [] 1 1)
             [MiningTick; Command (mkMessageIn "get-pools-list" "XMR");
              NetworkTick; Command (mkMessageIn "start-miner" "")]
             0 fresh_gui (0, [])) = Panic /\
  exists c,
    In (Command c)
       [MiningTick; Command (mkMessageIn "get-pools-list" "XMR");
        NetworkTick; Command (mkMessageIn "start-miner" "")] /\
    Name c = "start-miner".
Proof.
  split; [reflexivity|].
  destruct (session_panics_only_on_start_miner
              World (sample_env None None [] 1 1)
              [MiningTick; Command (mkMessageIn "get-pools-list" "XMR");
               NetworkTick; Command (mkMessageIn "start-miner" "")]
              0 fresh_gui (0, [])) as [Hp _]; [discriminate|].
  apply Hp. reflexivity.
Defined.
